(** * DuetWebControl: the store's connection orchestration and the board table

    A shallow embedding of three source files of the web interface:
    - [utils/errors.js]: the error classes and their [extends] chain;
    - the board table ([boardDefinitions], [isBoardValid],
      [getBoardDefinition]);
    - the Vuex root store: its state, getters, mutations and the three
      asynchronous actions [connect], [disconnect] and [sendCode].

    A JavaScript object used as a dictionary is a [gmap string _] of its own
    properties together with what a property read finds beyond them: the
    names inherited from [Object.prototype], and for an object that is
    written to, its prototype.  An [async] action is cut at its
    single [await] into the part that runs when the action is called and
    the part that runs when the awaited promise settles; the outcome of the
    awaited call is an argument of the second part. *)

From stdpp Require Import base strings gmap list.
From Stdlib Require Import ZArith.

Local Open Scope string_scope.
Local Open Scope Z_scope.
Local Open Scope list_scope.

(** ** Plain JavaScript objects *)

Module Js.

(** The properties of [Object.prototype]: an object literal answers a read
    of any of these names with the inherited member.  ["__proto__"] is the
    accessor of the prototype itself. *)
Definition object_prototype_names : list string :=
  ["constructor"; "hasOwnProperty"; "isPrototypeOf"; "propertyIsEnumerable";
   "toLocaleString"; "toString"; "valueOf"; "__proto__";
   "__defineGetter__"; "__defineSetter__";
   "__lookupGetter__"; "__lookupSetter__"].

Definition inherited (name : string) : bool :=
  bool_decide (name ∈ object_prototype_names).

End Js.

(** ** utils/errors.js *)

Module Errors.

(** The exported classes, together with the built-in [Error] and
    [TypeError]. *)
Inductive ErrorClass :=
| Error
| TypeError
| NotImplementedError
| DisconnectedError
| TimeoutError
| OperationFailedError
| LoginError
| InvalidPasswordError
| NoFreeSessionError
| CodeError
| CodeBufferError
| CodeResponseError.

#[global] Instance ErrorClass_eq_dec : EqDecision ErrorClass.
Proof. solve_decision. Defined.

(** [class C extends D]: the direct superclass. *)
Definition extends (c : ErrorClass) : option ErrorClass :=
  match c with
  | Error => None
  | TypeError
  | NotImplementedError | DisconnectedError | TimeoutError
  | OperationFailedError | LoginError | CodeError => Some Error
  | InvalidPasswordError | NoFreeSessionError => Some LoginError
  | CodeBufferError | CodeResponseError => Some CodeError
  end.

(** Walk the prototype chain of [c] looking for [d]. *)
Fixpoint on_chain (fuel : nat) (c d : ErrorClass) : bool :=
  bool_decide (c = d) ||
  match fuel with
  | O => false
  | S fuel' =>
      match extends c with
      | Some p => on_chain fuel' p d
      | None => false
      end
  end.

(** A thrown value: an object of one of the classes, with its message. *)
Record Exception := { cls : ErrorClass; message : string }.

(** [e instanceof d]; no chain is longer than three classes. *)
Definition instanceof (e : Exception) (d : ErrorClass) : bool :=
  on_chain 3 (cls e) d.

(** [new Error(msg)] *)
Definition new_Error (msg : string) : Exception :=
  {| cls := Error; message := msg |}.

End Errors.

(** ** The board table *)

Module Boards.

Record BoardDefinition := {
  motorWarningCurrent : Z;
  motorLimitCurrent : Z;
  seriesResistor : Z;
  microstepping : bool;
  microsteppingInterpolation : bool;
  maxDrives : Z;
  maxHeaters : Z;
  maxThermistors : Z;
  maxRtdBoards : Z;
  maxFans : Z;
  hasEthernet : bool;
  hasWiFi : bool;
  hasPowerFailureDetection : bool;
  hasMotorLoadDetection : bool
}.

Definition duetwifi10 : BoardDefinition := {|
  motorWarningCurrent := 2000;
  motorLimitCurrent := 2400;
  seriesResistor := 4700;
  microstepping := true;
  microsteppingInterpolation := false;
  maxDrives := 10;
  maxHeaters := 8;
  maxThermistors := 8;
  maxRtdBoards := 8;
  maxFans := 3;
  hasEthernet := false;
  hasWiFi := true;
  hasPowerFailureDetection := true;
  hasMotorLoadDetection := true
|}.

Definition duetethernet10 : BoardDefinition := {|
  motorWarningCurrent := 2000;
  motorLimitCurrent := 2400;
  seriesResistor := 4700;
  microstepping := true;
  microsteppingInterpolation := false;
  maxDrives := 10;
  maxHeaters := 8;
  maxThermistors := 8;
  maxRtdBoards := 8;
  maxFans := 3;
  hasEthernet := true;
  hasWiFi := false;
  hasPowerFailureDetection := true;
  hasMotorLoadDetection := true
|}.

Definition duetm10 : BoardDefinition := {|
  motorWarningCurrent := 1200;
  motorLimitCurrent := 1600;
  seriesResistor := 2200;
  microstepping := true;
  microsteppingInterpolation := true;
  maxDrives := 7;
  maxHeaters := 3;
  maxThermistors := 4;
  maxRtdBoards := 4;
  maxFans := 3;
  hasEthernet := true;
  hasWiFi := false;
  hasPowerFailureDetection := true;
  hasMotorLoadDetection := true
|}.

(** The own properties of the object literal, keyed by board type. *)
Definition boardDefinitions : gmap string BoardDefinition :=
  <["duetwifi10" := duetwifi10]>
    (<["duetethernet10" := duetethernet10]>
       (<["duetm10" := duetm10]> ∅)).

(** What a read [boardDefinitions[boardType]] yields: a definition of the
    table, a member inherited from [Object.prototype], or [undefined]. *)
Inductive Value :=
| Board (b : BoardDefinition)
| Inherited (name : string)
| Undefined.

Definition read (boardType : string) : Value :=
  match boardDefinitions !! boardType with
  | Some b => Board b
  | None => if Js.inherited boardType then Inherited boardType else Undefined
  end.

Definition defaultBoardName : string := "duetwifi10".

Definition defaultBoard : Value := read defaultBoardName.

(** [x !== undefined] *)
Definition defined (x : Value) : bool :=
  match x with Undefined => false | _ => true end.

Definition isBoardValid (boardType : string) : bool :=
  defined (read boardType).

(** The returned value, paired with what was written by [console.warn]. *)
Definition getBoardDefinition (boardType : string) : Value * list string :=
  if defined (read boardType)
  then (read boardType, [])
  else (read defaultBoardName,
        ["Unsupported board " +:+ boardType +:+ ", assuming Duet WiFi"]).

End Boards.

(** ** The root store *)

Module Store.
Import Errors.

(** What the store takes from its surroundings: the connector's session
    handles, the translation function [i18n.t], [location.hostname], and
    the message the engine gives the [TypeError] of a call of something
    that is not a function. *)
Class Surroundings := {
  Connector : Type;
  i18n_t : string → list string → string;
  location_hostname : string;
  not_a_function : string
}.

Section WithSurroundings.
Context {env : Surroundings}.

(** [machine(connector)]: the module built for a session handle;
    [machine()] is the module of the factory defaults. *)
Inductive MachineModule :=
| machine (connector : option Connector).

(** The mutations the actions commit: the store's own, [ui/addMachine] of
    the [ui] module and [unregister] of a machine module. *)
Inductive Mutation :=
| addMachine (hostname : string) (moduleInstance : MachineModule)
| removeMachine (hostname : string)
| setConnecting (connecting : bool)
| setDisconnecting (disconnecting : bool)
| setSelectedMachine (selectedMachine : string)
| ui_addMachine (hostname : string)
| machines_unregister (hostname : string).

(** What the actions do that is visible outside the store, in order. *)
Inductive Event :=
| Committed (m : Mutation)
| Dispatched (type : string) (payload : option string)
| ConnectorConnect (hostname user password : string)
| ConnectorRegister (connectorInstance : Connector)
                    (moduleInstance : MachineModule)
| LoggerLogGlobal (type title : string) (message : option string)
| LoggerLogCode (code response hostname : string)
| StoreLog (type message : string)
| ConsoleWarn (e : Exception).

(** The module-level [machines] object: its own properties, and its
    prototype once an assignment to ["__proto__"] has replaced
    [Object.prototype] by a module. *)
Record MachinesObject := {
  own : gmap string MachineModule;
  prototype : option MachineModule
}.

(** What a read [machines[name]] yields: a module (an own property, or the
    prototype read as ["__proto__"]); the property [name] of the module that
    is the prototype, whose properties are not in the sources; a member of
    [Object.prototype]; or [undefined]. *)
Inductive MachinesValue :=
| IsModule (m : MachineModule)
| OfPrototype (m : MachineModule) (name : string)
| OfObjectPrototype (name : string)
| IsUndefined.

Definition machines_get (o : MachinesObject) (name : string)
  : MachinesValue :=
  match own o !! name with
  | Some m => IsModule m
  | None =>
      match prototype o with
      | Some p =>
          if decide (name = "__proto__") then IsModule p
          else OfPrototype p name
      | None =>
          if Js.inherited name then OfObjectPrototype name else IsUndefined
      end
  end.

(** [machines[name] = m]: an own property, except that ["__proto__"],
    unless it is an own property already, goes to the inherited setter and
    replaces the prototype. *)
Definition machines_set (o : MachinesObject) (name : string)
    (m : MachineModule) : MachinesObject :=
  match own o !! name with
  | None =>
      if decide (name = "__proto__")
      then {| own := own o; prototype := Some m |}
      else {| own := <[name := m]> (own o); prototype := prototype o |}
  | Some _ => {| own := <[name := m]> (own o); prototype := prototype o |}
  end.

(** [delete machines[name]] removes an own property and nothing else. *)
Definition machines_delete (o : MachinesObject) (name : string)
  : MachinesObject :=
  {| own := delete name (own o); prototype := prototype o |}.

(** The module a read hands to [registerModule('machine', ...)]; a value
    that is not a module mounts none. *)
Definition mounted (v : MachinesValue) : option MachineModule :=
  match v with
  | IsModule m => Some m
  | _ => None
  end.

(** The store and what surrounds it.
    - [machines]: the module-level object of machine modules;
    - [state_machines]: the modules registered under [['machines', h]],
      that is, the own properties of [state.machines];
    - [machine_module]: the module registered under ['machine'];
    - [ui_machines]: the hostnames the [ui] module keeps, see [ui_add];
    - [journal]: the events so far, oldest first. *)
Record Store := {
  machines : MachinesObject;
  state_machines : gmap string MachineModule;
  machine_module : option MachineModule;
  isConnecting : bool;
  isDisconnecting : bool;
  selectedMachine : string;
  ui_machines : gset string;
  journal : list Event
}.

(** The store as the module is loaded: [machines = { default: machine() }],
    the same module under [machines/default], and registered dynamically
    under ['machine']. *)
Definition initial : Store := {|
  machines := {| own := {[ "default" := machine None ]};
                 prototype := None |};
  state_machines := {[ "default" := machine None ]};
  machine_module := Some (machine None);
  isConnecting := false;
  isDisconnecting := false;
  selectedMachine := "default";
  ui_machines := ∅;
  journal := []
|}.

(** *** Getters *)

Definition isConnected (state : Store) : bool :=
  negb (bool_decide (selectedMachine state = "default")).

(** The getter reads [location.hostname], not the store. *)
Definition isLocal : bool :=
  bool_decide (location_hostname = "localhost")
  || bool_decide (location_hostname = "127.0.0.1")
  || bool_decide (location_hostname = "[::1]").

(** *** Mutations *)

(** Modelled from the spec: [ui.js], the [ui] module that owns the
    [ui/addMachine] mutation, is not among the sources.  The spec has the
    UI collaborator mirror the registry membership, with [addEndpoint(id)]
    adding the endpoint; so [ui/addMachine] adds the hostname to the set
    the collaborator keeps. *)
Definition ui_add (hostname : string) (known : gset string) : gset string :=
  {[ hostname ]} ∪ known.

(** The mutations of the root store are those of the source.  The
    [unregister] mutation of a machine module belongs to the connector and
    changes nothing in this store. *)
Definition apply_mutation (m : Mutation) (state : Store) : Store :=
  match m with
  | addMachine hostname moduleInstance =>
      {| machines := machines_set (machines state) hostname moduleInstance;
         state_machines :=
           <[hostname := moduleInstance]> (state_machines state);
         machine_module := machine_module state;
         isConnecting := isConnecting state;
         isDisconnecting := isDisconnecting state;
         selectedMachine := selectedMachine state;
         ui_machines := ui_machines state;
         journal := journal state |}
  | removeMachine hostname =>
      {| machines := machines_delete (machines state) hostname;
         state_machines := delete hostname (state_machines state);
         machine_module := machine_module state;
         isConnecting := isConnecting state;
         isDisconnecting := isDisconnecting state;
         selectedMachine := selectedMachine state;
         ui_machines := ui_machines state;
         journal := journal state |}
  | setConnecting connecting =>
      {| machines := machines state;
         state_machines := state_machines state;
         machine_module := machine_module state;
         isConnecting := connecting;
         isDisconnecting := isDisconnecting state;
         selectedMachine := selectedMachine state;
         ui_machines := ui_machines state;
         journal := journal state |}
  | setDisconnecting disconnecting =>
      {| machines := machines state;
         state_machines := state_machines state;
         machine_module := machine_module state;
         isConnecting := isConnecting state;
         isDisconnecting := disconnecting;
         selectedMachine := selectedMachine state;
         ui_machines := ui_machines state;
         journal := journal state |}
  | setSelectedMachine selected =>
      {| machines := machines state;
         state_machines := state_machines state;
         machine_module := mounted (machines_get (machines state) selected);
         isConnecting := isConnecting state;
         isDisconnecting := isDisconnecting state;
         selectedMachine := selected;
         ui_machines := ui_machines state;
         journal := journal state |}
  | ui_addMachine hostname =>
      {| machines := machines state;
         state_machines := state_machines state;
         machine_module := machine_module state;
         isConnecting := isConnecting state;
         isDisconnecting := isDisconnecting state;
         selectedMachine := selectedMachine state;
         ui_machines := ui_add hostname (ui_machines state);
         journal := journal state |}
  | machines_unregister hostname => state
  end.

Definition record_event (ev : Event) (state : Store) : Store :=
  {| machines := machines state;
     state_machines := state_machines state;
     machine_module := machine_module state;
     isConnecting := isConnecting state;
     isDisconnecting := isDisconnecting state;
     selectedMachine := selectedMachine state;
     ui_machines := ui_machines state;
     journal := journal state ++ [ev] |}.

(** *** Actions: a state monad with exceptions

    A computation runs on the store and either returns a value or throws;
    what it did to the store before throwing stays done. *)

Definition Action (A : Type) : Type := Store → (Exception + A) * Store.

Definition ret {A} (a : A) : Action A := λ state, (inr a, state).

Definition throw {A} (e : Exception) : Action A := λ state, (inl e, state).

Definition bind {A B} (c : Action A) (k : A → Action B) : Action B :=
  λ state,
    match c state with
    | (inr a, state') => k a state'
    | (inl e, state') => (inl e, state')
    end.

(** [try { body } catch (e) { handler }] *)
Definition try_catch {A} (body : Action A) (handler : Exception → Action A)
  : Action A :=
  λ state,
    match body state with
    | (inr a, state') => (inr a, state')
    | (inl e, state') => handler e state'
    end.

Definition get_state : Action Store := λ state, (inr state, state).

Definition emit (ev : Event) : Action unit :=
  λ state, (inr tt, record_event ev state).

Definition commit (m : Mutation) : Action unit :=
  λ state, (inr tt, record_event (Committed m) (apply_mutation m state)).

(** The point where an awaited promise (or a call outside the store)
    settles: its value is returned, its rejection thrown. *)
Definition settle {A} (outcome : Exception + A) : Action A :=
  λ state, (outcome, state).

Notation "x ← c ; k" := (bind c (λ x, k))
  (at level 20, c at level 100, k at level 200, only parsing).
Notation "c ;; k" := (bind c (λ _, k))
  (at level 100, k at level 200, right associativity).

(** [state.machines.hasOwnProperty(hostname)].  The method is read from
    [state.machines] itself: while a machine named ["hasOwnProperty"] is
    registered the read finds that machine's state, and the call throws a
    [TypeError]. *)
Definition hasOwnProperty (m : gmap string MachineModule) (hostname : string)
  : Action bool :=
  match m !! "hasOwnProperty" with
  | Some _ => throw {| cls := TypeError; message := not_a_function |}
  | None => ret (match m !! hostname with Some _ => true | None => false end)
  end.

Definition Logger_logGlobal (type title : string) (message : option string)
  : Action unit :=
  emit (LoggerLogGlobal type title message).

Definition Logger_logCode (code response hostname : string) : Action unit :=
  emit (LoggerLogCode code response hostname).

(** [this.$log(type, message)] *)
Definition store_log (type message : string) : Action unit :=
  emit (StoreLog type message).

(** *** connect *)

(** The payload [{ hostname, user, password }]; an absent field takes its
    default. *)
Record ConnectPayload := {
  c_hostname : option string;
  c_user : option string;
  c_password : option string
}.

(** [hostname = location.hostname] in the parameter pattern *)
Definition connect_target (payload : ConnectPayload) : string :=
  default location_hostname (c_hostname payload).

(** Up to the [await]: the three checks, the gate, and the call of
    [connector.connect].  Returns the hostname the rest works on. *)
Definition connect_called (payload : ConnectPayload) : Action string :=
  let hostname := connect_target payload in
  let user := default "" (c_user payload) in
  let password := default "reprap" (c_password payload) in
  if decide (hostname = "default")
  then throw (new_Error "Invalid hostname (default is reserved)")
  else
    state ← get_state;
    registered ← hasOwnProperty (state_machines state) hostname;
    if registered : bool
    then throw (new_Error ("Host " +:+ hostname +:+ " is already connected!"))
    else if isConnecting state
    then throw (new_Error "Already connecting")
    else
      commit (setConnecting true);;
      emit (ConnectorConnect hostname user password);;
      ret hostname.

(** From the [await] on.  [handshake] is how [connector.connect] settled,
    [registration] whether [connectorInstance.register] returned or
    threw. *)
Definition connect_settled (hostname : string)
    (handshake : Exception + Connector) (registration : Exception + unit)
  : Action unit :=
  try_catch
    (connectorInstance ← settle handshake;
     let moduleInstance := machine (Some connectorInstance) in
     commit (addMachine hostname moduleInstance);;
     commit (ui_addMachine hostname);;
     emit (ConnectorRegister connectorInstance moduleInstance);;
     settle registration;;
     commit (setSelectedMachine hostname);;
     Logger_logGlobal "success" (i18n_t "notification.connected" [hostname])
                      None)
    (λ e,
       Logger_logGlobal "error" (i18n_t "error.connectError" [hostname])
                        (Some (message e)));;
  commit (setConnecting false).

(** The action run without anything in between. *)
Definition connect (payload : ConnectPayload)
    (handshake : Exception + Connector) (registration : Exception + unit)
  : Action unit :=
  hostname ← connect_called payload;
  connect_settled hostname handshake registration.

(** *** disconnect *)

(** The payload [{ hostname, doDisconnect }]; the action may also be
    dispatched without a payload. *)
Record DisconnectPayload := {
  d_hostname : string;
  d_doDisconnect : option bool
}.

(** Steps after the [if (doDisconnect)] block. *)
Definition disconnect_removal (hostname : string) : Action unit :=
  commit (machines_unregister hostname);;
  state ← get_state;
  (if decide (selectedMachine state = hostname)
   then commit (setSelectedMachine "default")
   else ret tt);;
  commit (removeMachine hostname).

(** The parameter pattern
    [{ hostname, doDisconnect = true }
       = { hostname: state.selectedMachine, doDisconnect: true }]. *)
Definition disconnect_target (payload : option DisconnectPayload)
    (state : Store) : string :=
  match payload with
  | Some p => d_hostname p
  | None => selectedMachine state
  end.

Definition disconnect_live (payload : option DisconnectPayload) : bool :=
  match payload with
  | Some p => default true (d_doDisconnect p)
  | None => true
  end.

(** Up to the [await] when [doDisconnect] holds, and to the end when it
    does not.  Returns the hostname when a teardown is awaited. *)
Definition disconnect_called (payload : option DisconnectPayload)
  : Action (option string) :=
  state ← get_state;
  let hostname := disconnect_target payload state in
  let doDisconnect := disconnect_live payload in
  if decide (hostname = "default")
  then throw (new_Error "Invalid hostname (default is reserved)")
  else
    registered ← hasOwnProperty (state_machines state) hostname;
    if negb registered
    then throw (new_Error ("Host " +:+ hostname
                           +:+ " is already disconnected!"))
    else if doDisconnect
    then
      commit (setDisconnecting true);;
      emit (Dispatched ("machines/" +:+ hostname +:+ "/disconnect") None);;
      ret (Some hostname)
    else
      disconnect_removal hostname;;
      ret None.

(** From the [await] on; [teardown] is how the machine's [disconnect]
    action settled. *)
Definition disconnect_settled (hostname : string)
    (teardown : Exception + unit) : Action unit :=
  try_catch
    (settle teardown;;
     Logger_logGlobal "success" (i18n_t "notification.disconnected" [hostname])
                      None)
    (λ e,
       Logger_logGlobal "warning" (i18n_t "error.disconnectError" [hostname])
                        (Some (message e));;
       emit (ConsoleWarn e));;
  commit (setDisconnecting false);;
  disconnect_removal hostname.

(** The action run without anything in between. *)
Definition disconnect (payload : option DisconnectPayload)
    (teardown : Exception + unit) : Action unit :=
  awaited ← disconnect_called payload;
  match awaited with
  | Some hostname => disconnect_settled hostname teardown
  | None => ret tt
  end.

(** *** sendCode *)

Definition sendCode_called (code : string) : Action string :=
  state ← get_state;
  let hostname := selectedMachine state in
  emit (Dispatched ("machines/" +:+ hostname +:+ "/sendCode") (Some code));;
  ret hostname.

(** [reply] is how the machine's [sendCode] action settled. *)
Definition sendCode_settled (hostname code : string)
    (reply : Exception + string) : Action unit :=
  try_catch
    (response ← settle reply;
     Logger_logCode code response hostname)
    (λ e,
       (if negb (instanceof e DisconnectedError)
        then
          let type :=
            if instanceof e CodeBufferError then "warning" else "error" in
          store_log type (message e)
        else ret tt);;
       throw e).

Definition sendCode (code : string) (reply : Exception + string)
  : Action unit :=
  hostname ← sendCode_called code;
  sendCode_settled hostname code reply.

(** The store right after a connect was admitted: the gate is set and
    the handshake requested. *)
Definition admitted_connect (hostname user password : string)
    (state : Store) : Store :=
  record_event (ConnectorConnect hostname user password)
    (record_event (Committed (setConnecting true))
       (apply_mutation (setConnecting true) state)).

(** *** The actions interleaved

    The scheduler is cooperative: an action runs until its [await], and
    what follows the [await] runs when the promise settles, other actions
    possibly having run in between.  A task is an action suspended at its
    [await], with the local variables it resumes with. *)

Inductive Task :=
| Connecting (hostname : string)
| Disconnecting (hostname : string)
| SendingCode (hostname code : string).

Record System := { store : Store; suspended : list Task }.

Definition boot : System := {| store := initial; suspended := [] |}.

(** What one call adds to the suspended tasks. *)
Definition spawned {A} (r : Exception + A) (t : A → list Task) : list Task :=
  match r with
  | inr a => t a
  | inl _ => []
  end.

Inductive step : System → System → Prop :=
| step_connect_called sys payload r state' :
    connect_called payload (store sys) = (r, state') →
    step sys {| store := state';
                suspended :=
                  spawned r (λ h, [Connecting h]) ++ suspended sys |}
| step_connect_settled sys hostname before after handshake registration
                       r state' :
    suspended sys = before ++ Connecting hostname :: after →
    connect_settled hostname handshake registration (store sys)
      = (r, state') →
    step sys {| store := state'; suspended := before ++ after |}
| step_disconnect_called sys payload r state' :
    disconnect_called payload (store sys) = (r, state') →
    step sys {| store := state';
                suspended :=
                  spawned r (λ a, match a with
                                  | Some h => [Disconnecting h]
                                  | None => []
                                  end) ++ suspended sys |}
| step_disconnect_settled sys hostname before after teardown r state' :
    suspended sys = before ++ Disconnecting hostname :: after →
    disconnect_settled hostname teardown (store sys) = (r, state') →
    step sys {| store := state'; suspended := before ++ after |}
| step_sendCode_called sys code r state' :
    sendCode_called code (store sys) = (r, state') →
    step sys {| store := state';
                suspended :=
                  spawned r (λ h, [SendingCode h code]) ++ suspended sys |}
| step_sendCode_settled sys hostname code before after reply r state' :
    suspended sys = before ++ SendingCode hostname code :: after →
    sendCode_settled hostname code reply (store sys) = (r, state') →
    step sys {| store := state'; suspended := before ++ after |}.

Inductive reachable : System → Prop :=
| reachable_boot : reachable boot
| reachable_step sys sys' : reachable sys → step sys sys' → reachable sys'.

(** The hostnames of the suspended connects, and of the suspended
    disconnects. *)
Definition connecting (tasks : list Task) : list string :=
  omap (λ t, match t with Connecting h => Some h | _ => None end) tasks.

Definition disconnecting (tasks : list Task) : list string :=
  omap (λ t, match t with Disconnecting h => Some h | _ => None end) tasks.

Definition connects_in_flight (sys : System) : nat :=
  length (connecting (suspended sys)).

Definition disconnects_in_flight (sys : System) : nat :=
  length (disconnecting (suspended sys)).

(** What holds of every reachable system (see [reachable_consistent]). *)
Record consistent (sys : System) : Prop := {
  default_registered :
    state_machines (store sys) !! "default" = Some (machine None);
  selected_registered :
    is_Some (state_machines (store sys) !! selectedMachine (store sys));
  machines_mirrored :
    ∀ h, h ≠ "__proto__" →
         own (machines (store sys)) !! h = state_machines (store sys) !! h;
  machines_own_proto :
    own (machines (store sys)) !! "__proto__" = None;
  machines_prototype :
    ∀ m, state_machines (store sys) !! "__proto__" = Some m →
         prototype (machines (store sys)) = Some m;
  machine_is_selected :
    machine_module (store sys)
    = state_machines (store sys) !! selectedMachine (store sys);
  connect_gate :
    match connecting (suspended sys) with
    | [] => isConnecting (store sys) = false
    | [h] => isConnecting (store sys) = true ∧
             state_machines (store sys) !! h = None
    | _ => False
    end;
  disconnecting_not_default :
    Forall (λ h, h ≠ "default") (disconnecting (suspended sys))
}.

(** What else holds of every reachable system (see [reachable_tidy]):
    a registered module other than the default one was built from a session
    handle, [isDisconnecting] is set only while a disconnect is suspended,
    and [ui/addMachine] was committed for every registered hostname other
    than ["default"]. *)
Record tidy (sys : System) : Prop := {
  modules_have_connectors :
    ∀ h m, state_machines (store sys) !! h = Some m → h ≠ "default" →
           ∃ c, m = machine (Some c);
  disconnect_flag :
    isDisconnecting (store sys) = true → disconnecting (suspended sys) ≠ [];
  machines_announced :
    ∀ h, h ≠ "default" → is_Some (state_machines (store sys) !! h) →
         Committed (ui_addMachine h) ∈ journal (store sys)
}.

(** *** The constructors of utils/errors.js

    [new C(...)] for each class of the file.  [LoginError] and [CodeError]
    declare no constructor and pass their argument on to [Error]; the others
    take their message from [i18n.t]. *)
Inductive Construction :=
| NewNotImplementedError (field : string)
| NewDisconnectedError
| NewTimeoutError
| NewOperationFailedError (reason : string)
| NewLoginError (msg : string)
| NewInvalidPasswordError
| NewNoFreeSessionError
| NewCodeError (msg : string)
| NewCodeBufferError
| NewCodeResponseError.

Definition construct (k : Construction) : Exception :=
  match k with
  | NewNotImplementedError field =>
      {| cls := NotImplementedError;
         message := i18n_t "error.notImplemented" [field] |}
  | NewDisconnectedError =>
      {| cls := DisconnectedError;
         message := i18n_t "error.disconnectedError" [] |}
  | NewTimeoutError =>
      {| cls := TimeoutError; message := i18n_t "error.timeoutError" [] |}
  | NewOperationFailedError reason =>
      {| cls := OperationFailedError;
         message := i18n_t "error.operationFailed" [reason] |}
  | NewLoginError msg => {| cls := LoginError; message := msg |}
  | NewInvalidPasswordError =>
      {| cls := InvalidPasswordError;
         message := i18n_t "error.invalidPassword" [] |}
  | NewNoFreeSessionError =>
      {| cls := NoFreeSessionError;
         message := i18n_t "error.noFreeSession" [] |}
  | NewCodeError msg => {| cls := CodeError; message := msg |}
  | NewCodeBufferError =>
      {| cls := CodeBufferError;
         message := i18n_t "error.codeBufferError" [] |}
  | NewCodeResponseError =>
      {| cls := CodeResponseError;
         message := i18n_t "error.codeResponseError" [] |}
  end.

End WithSurroundings.
End Store.

(** ** A concrete setting, for examples *)

Module Lab.
Import Errors Store.

(** Session handles are numbers and a translation is its key followed by
    its arguments. *)
Definition surroundings : Surroundings := {|
  Connector := nat;
  i18n_t := λ key args, String.concat " " (key :: args);
  location_hostname := "duet.local";
  not_a_function := "state.machines.hasOwnProperty is not a function"
|}.

(** The same with the page served from the machine itself. *)
Definition local_surroundings : Surroundings := {|
  Connector := nat;
  i18n_t := λ key args, String.concat " " (key :: args);
  location_hostname := "localhost";
  not_a_function := "state.machines.hasOwnProperty is not a function"
|}.

Definition printer : ConnectPayload := {|
  c_hostname := Some "10.0.0.5";
  c_user := Some "";
  c_password := Some "reprap"
|}.

Definition boom : Exception := new_Error "boom".

(** The store once [connect(printer)] has succeeded with handle [7]. *)
Definition connected : Store (env := surroundings) :=
  (connect (env := surroundings) printer (inr 7%nat) (inr tt) initial).2.

(** Four systems in a row: the connect suspended at its handshake, the
    machine connected, a first [disconnect()] suspended at its teardown, and
    a second [disconnect()] called before the first has settled. *)
Definition handshaking : System (env := surroundings) := {|
  store := (connect_called printer initial).2;
  suspended := [Connecting "10.0.0.5"]
|}.

Definition online : System (env := surroundings) :=
  {| store := connected; suspended := [] |}.

Definition tearing_down : System (env := surroundings) := {|
  store := (disconnect_called None connected).2;
  suspended := [Disconnecting "10.0.0.5"]
|}.

(** The store after a connect whose handshake succeeds and whose
    registration then throws. *)
Definition half_connected : Store (env := surroundings) :=
  (connect (env := surroundings) printer (inr 7%nat) (inl boom) initial).2.

Definition tearing_down_twice : System (env := surroundings) := {|
  store := (disconnect_called None (store tearing_down)).2;
  suspended := [Disconnecting "10.0.0.5"; Disconnecting "10.0.0.5"]
|}.

(** A second machine, and a machine whose hostname is the name of the
    method the checks call. *)
Definition second_printer : ConnectPayload := {|
  c_hostname := Some "10.0.0.6";
  c_user := None;
  c_password := None
|}.

Definition shadow : ConnectPayload := {|
  c_hostname := Some "hasOwnProperty";
  c_user := None;
  c_password := None
|}.

(** The store once [connect(shadow)] has succeeded with handle [9]. *)
Definition shadowed : Store (env := surroundings) :=
  (connect (env := surroundings) shadow (inr 9%nat) (inr tt) initial).2.

Definition shadowed_handshaking : System (env := surroundings) := {|
  store := (connect_called shadow initial).2;
  suspended := [Connecting "hasOwnProperty"]
|}.

Definition shadowed_online : System (env := surroundings) :=
  {| store := shadowed; suspended := [] |}.

(** With the first machine connected: the connect of the second suspended
    at its handshake; then [disconnect()] of the first, the selected one,
    suspended at its teardown; then the second connect settled, which
    selects the second machine; then the teardown settled. *)
Definition second_handshaking : System (env := surroundings) := {|
  store := (connect_called second_printer connected).2;
  suspended := [Connecting "10.0.0.6"]
|}.

Definition leaving : System (env := surroundings) := {|
  store := (disconnect_called None (store second_handshaking)).2;
  suspended := [Disconnecting "10.0.0.5"; Connecting "10.0.0.6"]
|}.

Definition overtaken : System (env := surroundings) := {|
  store := (connect_settled (env := surroundings) "10.0.0.6" (inr 8%nat)
              (inr tt) (store leaving)).2;
  suspended := [Disconnecting "10.0.0.5"]
|}.

Definition left_behind : System (env := surroundings) := {|
  store := (disconnect_settled (env := surroundings) "10.0.0.5" (inr tt)
              (store overtaken)).2;
  suspended := []
|}.

(** With both machines connected: a disconnect of the first suspended at
    its teardown, and the payload of a disconnect of the second that skips
    the teardown. *)
Definition both_online : System (env := surroundings) := {|
  store := (connect_settled (env := surroundings) "10.0.0.6" (inr 8%nat)
              (inr tt) (store second_handshaking)).2;
  suspended := []
|}.

Definition first_leaving : System (env := surroundings) := {|
  store := (disconnect_called
              (Some {| d_hostname := "10.0.0.5"; d_doDisconnect := None |})
              (store both_online)).2;
  suspended := [Disconnecting "10.0.0.5"]
|}.

Definition drop_second : option DisconnectPayload :=
  Some {| d_hostname := "10.0.0.6"; d_doDisconnect := Some false |}.

End Lab.

(** ** Theorems: the board table *)

Module BoardsFacts.
Import Boards.

(** A read of the table, by cases on the board type: the three own
    properties, then the inherited names, then [undefined]. *)
Lemma read_cases boardType :
  read boardType
  = if decide (boardType = "duetwifi10") then Board duetwifi10
    else if decide (boardType = "duetethernet10") then Board duetethernet10
    else if decide (boardType = "duetm10") then Board duetm10
    else if Js.inherited boardType then Inherited boardType
    else Undefined.
Proof.
  unfold read, boardDefinitions. rewrite !lookup_insert, lookup_empty.
  repeat case_decide; simplify_eq; done.
Qed.

Lemma defaultBoard_is_duetwifi10 : defaultBoard = Board duetwifi10.
Proof. reflexivity. Qed.

Lemma getBoardDefinition_valid boardType :
  isBoardValid boardType = true →
  getBoardDefinition boardType = (read boardType, []).
Proof.
  unfold isBoardValid, getBoardDefinition. by intros ->.
Qed.

Lemma getBoardDefinition_invalid boardType :
  isBoardValid boardType = false →
  getBoardDefinition boardType =
    (Board duetwifi10,
     ["Unsupported board " +:+ boardType +:+ ", assuming Duet WiFi"]).
Proof.
  unfold isBoardValid, getBoardDefinition. by intros ->.
Qed.

(** [getBoardDefinition] never returns [undefined].  When [isBoardValid]
    holds it returns what a read of the table yields for the board type
    (the stored definition for a key of the table), with nothing written to
    the console; otherwise the read yields [undefined] and the result is
    the definition of the default board ["duetwifi10"], with a warning.
    [getBoardDefinition(defaultBoardName)] is [defaultBoard]. *)
Theorem getBoardDefinition_total_with_fallback :
  (∀ boardType : string,
     (getBoardDefinition boardType).1 ≠ Undefined ∧
     if isBoardValid boardType
     then (getBoardDefinition boardType).1 = read boardType ∧
          (getBoardDefinition boardType).2 = []
     else read boardType = Undefined ∧
          (getBoardDefinition boardType).1 = read "duetwifi10" ∧
          (getBoardDefinition boardType).1 = Board duetwifi10 ∧
          (getBoardDefinition boardType).2
          = ["Unsupported board " +:+ boardType +:+ ", assuming Duet WiFi"]) ∧
  (∀ boardType b,
     boardDefinitions !! boardType = Some b →
     isBoardValid boardType = true ∧
     getBoardDefinition boardType = (Board b, [])) ∧
  isBoardValid defaultBoardName = true ∧
  (getBoardDefinition defaultBoardName).1 = defaultBoard ∧
  defaultBoard = Board duetwifi10.
Proof.
  split; [|split; [|by repeat split]].
  - intros boardType.
    destruct (isBoardValid boardType) eqn:Hvalid.
    + rewrite (getBoardDefinition_valid _ Hvalid). cbn.
      split; [|done]. unfold isBoardValid in Hvalid.
      by destruct (read boardType).
    + rewrite (getBoardDefinition_invalid _ Hvalid). cbn.
      split; [done|]. split; [|done]. unfold isBoardValid in Hvalid.
      by destruct (read boardType).
  - intros boardType b Hb.
    assert (read boardType = Board b) as Hread by (unfold read; by rewrite Hb).
    assert (isBoardValid boardType = true) as Hvalid
      by (unfold isBoardValid; by rewrite Hread).
    split; [done|]. by rewrite (getBoardDefinition_valid _ Hvalid), Hread.
Qed.

(** C10 fails on the code at a board type that names a member of
    [Object.prototype]: ["constructor"] is no key of the table, but the
    read finds the inherited member, so [isBoardValid] holds and
    [getBoardDefinition] returns that member, which is no board definition,
    with no warning, where the definition of ["duetwifi10"] was due. *)
Theorem getBoardDefinition_of_constructor :
  boardDefinitions !! "constructor" = None ∧
  isBoardValid "constructor" = true ∧
  getBoardDefinition "constructor" = (Inherited "constructor", []) ∧
  (getBoardDefinition "constructor").1 ≠ defaultBoard ∧
  ∀ b, (getBoardDefinition "constructor").1 ≠ Board b.
Proof.
  assert (getBoardDefinition "constructor" = (Inherited "constructor", []))
    as Hrun by (vm_compute; reflexivity).
  split; [vm_compute; reflexivity|]. split; [vm_compute; reflexivity|].
  split; [exact Hrun|]. rewrite Hrun, defaultBoard_is_duetwifi10. cbn.
  split; [discriminate|]. intros b. discriminate.
Qed.

End BoardsFacts.

(** ** Theorems: the root store *)

Module StoreFacts.
Import Errors Store.

Section WithSurroundings.
Context {env : Surroundings}.

(** Unfold the actions down to functions on the store. *)
Ltac run :=
  unfold connect, connect_called, connect_settled, disconnect,
    disconnect_called, disconnect_settled, disconnect_removal, sendCode,
    sendCode_called, sendCode_settled, try_catch, bind, ret, throw,
    get_state, emit, commit, settle, Logger_logGlobal, Logger_logCode,
    store_log in *.

(** *** The [machines] object *)

(** A read right after a write of the same name finds the module written,
    also when the name is ["__proto__"]. *)
Lemma machines_get_set o name m :
  machines_get (machines_set o name m) name = IsModule m.
Proof.
  unfold machines_get, machines_set.
  destruct (own o !! name) eqn:Hown; cbn.
  - by rewrite lookup_insert_eq.
  - destruct (decide (name = "__proto__")); cbn.
    + by rewrite Hown.
    + by rewrite lookup_insert_eq.
Qed.

Lemma machines_set_own o name m h :
  h ≠ name →
  own (machines_set o name m) !! h = own o !! h.
Proof.
  intros Hne. unfold machines_set.
  destruct (own o !! name); [|destruct (decide (name = "__proto__"))];
    cbn; rewrite ?lookup_insert_ne; done.
Qed.

Lemma machines_set_own_eq o name m :
  name ≠ "__proto__" →
  own (machines_set o name m) !! name = Some m.
Proof.
  intros Hne. unfold machines_set.
  destruct (own o !! name); [|rewrite decide_False by done];
    cbn; by rewrite lookup_insert_eq.
Qed.

Lemma machines_set_own_proto o name m :
  own o !! "__proto__" = None →
  own (machines_set o name m) !! "__proto__" = None.
Proof.
  intros Hnone. destruct (decide (name = "__proto__")) as [->|Hne].
  - unfold machines_set. by rewrite Hnone.
  - by rewrite machines_set_own.
Qed.

Lemma machines_set_prototype o name m :
  own o !! "__proto__" = None →
  prototype (machines_set o name m)
  = if decide (name = "__proto__") then Some m else prototype o.
Proof.
  intros Hnone. unfold machines_set.
  destruct (decide (name = "__proto__")) as [->|Hne].
  - by rewrite Hnone.
  - by destruct (own o !! name).
Qed.

(** *** What each part of an action does *)

Lemma hasOwnProperty_run (m : gmap string MachineModule) hostname state :
  hasOwnProperty m hostname state
  = match m !! "hasOwnProperty" with
    | Some _ => (inl {| cls := TypeError; message := not_a_function |}, state)
    | None =>
        (inr (match m !! hostname with Some _ => true | None => false end),
         state)
    end.
Proof. unfold hasOwnProperty. by destruct (m !! "hasOwnProperty"). Qed.

Lemma connect_called_inv payload state r state' :
  connect_called payload state = (r, state') →
  let hostname := connect_target payload in
  (∃ e, r = inl e ∧ state' = state) ∨
  (r = inr hostname ∧ hostname ≠ "default" ∧
   state_machines state !! "hasOwnProperty" = None ∧
   state_machines state !! hostname = None ∧ isConnecting state = false ∧
   state' = admitted_connect hostname (default "" (c_user payload))
              (default "reprap" (c_password payload)) state).
Proof.
  intros Hrun hostname. run. fold hostname in Hrun.
  destruct (decide (hostname = "default")) as [Hd|Hd].
  { left. eexists. by simplify_eq. }
  rewrite hasOwnProperty_run in Hrun.
  destruct (state_machines state !! "hasOwnProperty") eqn:Hshadow.
  { left. eexists. by simplify_eq. }
  destruct (state_machines state !! hostname) eqn:Hreg.
  { left. eexists. by simplify_eq. }
  destruct (isConnecting state) eqn:Hgate.
  { left. eexists. by simplify_eq. }
  right. by simplify_eq.
Qed.

Lemma connect_called_admits payload state :
  let hostname := connect_target payload in
  hostname ≠ "default" →
  state_machines state !! "hasOwnProperty" = None →
  state_machines state !! hostname = None →
  isConnecting state = false →
  connect_called payload state
  = (inr hostname,
     admitted_connect hostname (default "" (c_user payload))
       (default "reprap" (c_password payload)) state).
Proof.
  intros hostname Hd Hshadow Hreg Hgate. run. fold hostname.
  destruct (decide (hostname = "default")); [done|].
  rewrite hasOwnProperty_run, Hshadow.
  by rewrite Hreg, Hgate.
Qed.

(** The part of [connect] after the [await] never throws and always ends
    by clearing the gate. *)
Lemma connect_settled_returns hostname handshake registration state :
  ∃ state',
    connect_settled hostname handshake registration state = (inr tt, state')
    ∧ isConnecting state' = false
    ∧ isDisconnecting state' = isDisconnecting state
    ∧ last (journal state') = Some (Committed (setConnecting false)).
Proof.
  destruct handshake as [e|c]; [|destruct registration as [e|[]]];
    (eexists; split; [reflexivity|]); cbn;
    rewrite ?last_snoc; done.
Qed.

(** The removal steps of [disconnect], field by field. *)
Lemma disconnect_removal_run hostname state :
  ∃ state',
    disconnect_removal hostname state = (inr tt, state')
    ∧ machines state' = machines_delete (machines state) hostname
    ∧ state_machines state' = delete hostname (state_machines state)
    ∧ selectedMachine state'
      = (if decide (selectedMachine state = hostname)
         then "default" else selectedMachine state)
    ∧ machine_module state'
      = (if decide (selectedMachine state = hostname)
         then mounted (machines_get (machines state) "default")
         else machine_module state)
    ∧ isConnecting state' = isConnecting state
    ∧ isDisconnecting state' = isDisconnecting state
    ∧ ui_machines state' = ui_machines state
    ∧ journal state'
      = journal state
        ++ [Committed (machines_unregister hostname)]
        ++ (if decide (selectedMachine state = hostname)
            then [Committed (setSelectedMachine "default")] else [])
        ++ [Committed (removeMachine hostname)].
Proof.
  run. cbn.
  destruct (decide (selectedMachine state = hostname));
    (eexists; split; [reflexivity|]); cbn;
    rewrite <- ?app_assoc; done.
Qed.

Lemma disconnect_called_inv payload state r state' :
  disconnect_called payload state = (r, state') →
  let hostname := disconnect_target payload state in
  (∃ e, r = inl e ∧ state' = state) ∨
  (hostname ≠ "default" ∧
   state_machines state !! "hasOwnProperty" = None ∧
   is_Some (state_machines state !! hostname) ∧
   ((r = inr (Some hostname) ∧
     state' = record_event
                (Dispatched ("machines/" +:+ hostname +:+ "/disconnect") None)
                (record_event (Committed (setDisconnecting true))
                   (apply_mutation (setDisconnecting true) state))) ∨
    (r = inr None ∧
     disconnect_removal hostname state = (inr tt, state')))).
Proof.
  intros Hrun hostname.
  unfold disconnect_called, bind, get_state, throw in Hrun.
  fold hostname in Hrun.
  destruct (decide (hostname = "default")) as [Hd|Hd].
  { left. eexists. by simplify_eq. }
  rewrite hasOwnProperty_run in Hrun.
  destruct (state_machines state !! "hasOwnProperty") eqn:Hshadow.
  { left. eexists. by simplify_eq. }
  destruct (state_machines state !! hostname) eqn:Hreg;
    cbv beta iota delta [negb] in Hrun;
    [|left; eexists; by simplify_eq].
  right. split; [done|]. split; [done|]. split; [by eexists|].
  destruct (disconnect_live payload).
  - left. run. by simplify_eq.
  - right.
    destruct (disconnect_removal_run hostname state) as (s1 & Hs1 & _).
    rewrite Hs1 in Hrun. unfold ret in Hrun. by simplify_eq.
Qed.

(** The part of [disconnect] after the [await] clears the flag and then
    runs the removal steps; it never throws. *)
Lemma disconnect_settled_run hostname teardown state :
  ∃ mid state',
    disconnect_settled hostname teardown state = (inr tt, state')
    ∧ disconnect_removal hostname mid = (inr tt, state')
    ∧ machines mid = machines state
    ∧ state_machines mid = state_machines state
    ∧ selectedMachine mid = selectedMachine state
    ∧ machine_module mid = machine_module state
    ∧ isConnecting mid = isConnecting state
    ∧ isDisconnecting mid = false
    ∧ ui_machines mid = ui_machines state
    ∧ journal mid
      = journal state
        ++ match teardown with
           | inr _ =>
               [LoggerLogGlobal "success"
                  (i18n_t "notification.disconnected" [hostname]) None]
           | inl e =>
               [LoggerLogGlobal "warning"
                  (i18n_t "error.disconnectError" [hostname])
                  (Some (message e));
                ConsoleWarn e]
           end
        ++ [Committed (setDisconnecting false)].
Proof.
  unfold disconnect_settled.
  destruct teardown as [e|[]].
  - set (mid := record_event (Committed (setDisconnecting false))
                  (apply_mutation (setDisconnecting false)
                     (record_event (ConsoleWarn e)
                        (record_event
                           (LoggerLogGlobal "warning"
                              (i18n_t "error.disconnectError" [hostname])
                              (Some (message e))) state)))).
    destruct (disconnect_removal_run hostname mid) as (s' & Hs' & _).
    exists mid, s'. split; [exact Hs'|]. split; [exact Hs'|].
    cbn. rewrite <- !app_assoc. done.
  - set (mid := record_event (Committed (setDisconnecting false))
                  (apply_mutation (setDisconnecting false)
                     (record_event
                        (LoggerLogGlobal "success"
                           (i18n_t "notification.disconnected" [hostname])
                           None) state))).
    destruct (disconnect_removal_run hostname mid) as (s' & Hs' & _).
    exists mid, s'. split; [exact Hs'|]. split; [exact Hs'|].
    cbn. rewrite <- !app_assoc. done.
Qed.

(** The part of [connect] after the [await], field by field, for each
    way the handshake and the registration can go. *)
Lemma connect_settled_fields hostname handshake registration state r state' :
  connect_settled hostname handshake registration state = (r, state') →
  r = inr tt ∧ isConnecting state' = false ∧
  isDisconnecting state' = isDisconnecting state ∧
  match handshake, registration with
  | inl e, _ =>
      machines state' = machines state ∧
      state_machines state' = state_machines state ∧
      selectedMachine state' = selectedMachine state ∧
      machine_module state' = machine_module state ∧
      ui_machines state' = ui_machines state
  | inr c, inl e =>
      machines state'
      = machines_set (machines state) hostname (machine (Some c)) ∧
      state_machines state'
      = <[hostname := machine (Some c)]> (state_machines state) ∧
      selectedMachine state' = selectedMachine state ∧
      machine_module state' = machine_module state ∧
      ui_machines state' = ui_add hostname (ui_machines state)
  | inr c, inr _ =>
      machines state'
      = machines_set (machines state) hostname (machine (Some c)) ∧
      state_machines state'
      = <[hostname := machine (Some c)]> (state_machines state) ∧
      selectedMachine state' = hostname ∧
      machine_module state' = Some (machine (Some c)) ∧
      ui_machines state' = ui_add hostname (ui_machines state)
  end.
Proof.
  intros Hrun. run.
  destruct handshake as [e|c]; [|destruct registration as [e|[]]];
    cbn in Hrun; simplify_eq; cbn; rewrite ?machines_get_set; done.
Qed.

(** The part of [sendCode] after the [await]. *)
Lemma sendCode_settled_run hostname code reply state :
  sendCode_settled hostname code reply state
  = match reply with
    | inr response =>
        (inr tt, record_event (LoggerLogCode code response hostname) state)
    | inl e =>
        (inl e,
         if instanceof e DisconnectedError then state
         else record_event
                (StoreLog (if instanceof e CodeBufferError
                           then "warning" else "error") (message e))
                state)
    end.
Proof.
  unfold sendCode_settled, try_catch, bind, settle.
  destruct reply as [e|response]; [|done].
  by destruct (instanceof e DisconnectedError).
Qed.

(** *** Suspended tasks *)

Lemma connecting_app a b : connecting (a ++ b) = connecting a ++ connecting b.
Proof. apply omap_app. Qed.

Lemma disconnecting_app a b :
  disconnecting (a ++ b) = disconnecting a ++ disconnecting b.
Proof. apply omap_app. Qed.

(** A single suspended connect: taking it out leaves none. *)
Lemma connecting_single before hostname after h :
  connecting (before ++ Connecting hostname :: after) = [h] →
  h = hostname ∧ connecting (before ++ after) = [].
Proof.
  rewrite !connecting_app. cbn.
  destruct (connecting before); cbn; intros Heq; simplify_eq; [done|].
  by destruct l.
Qed.

Lemma connecting_skip before t after :
  (∀ h, t ≠ Connecting h) →
  connecting (before ++ t :: after) = connecting (before ++ after).
Proof.
  intros Ht. rewrite !connecting_app. f_equal.
  destruct t; cbn; try done. by destruct (Ht hostname).
Qed.

Lemma disconnecting_skip before t after :
  (∀ h, t ≠ Disconnecting h) →
  disconnecting (before ++ t :: after) = disconnecting (before ++ after).
Proof.
  intros Ht. rewrite !disconnecting_app. f_equal.
  destruct t; cbn; try done. by destruct (Ht hostname).
Qed.

(** *** Consistency of the reachable systems *)

Lemma boot_consistent : consistent boot.
Proof.
  split; cbn; first [done | by eexists].
Qed.

(** The removal steps, run on a registered hostname other than
    ["default"], keep a consistent system consistent. *)
Lemma removal_consistent sys hostname mid state' tasks :
  consistent sys →
  hostname ≠ "default" →
  machines mid = machines (store sys) →
  state_machines mid = state_machines (store sys) →
  selectedMachine mid = selectedMachine (store sys) →
  machine_module mid = machine_module (store sys) →
  isConnecting mid = isConnecting (store sys) →
  connecting tasks = connecting (suspended sys) →
  Forall (λ h, h ≠ "default") (disconnecting tasks) →
  disconnect_removal hostname mid = (inr tt, state') →
  consistent {| store := state'; suspended := tasks |}.
Proof.
  intros [Hdef Hsel Hmir Hop Hproto Hmod Hgate Hdis] Hne Hm Hsm Hs Hmm Hc
    Htasks Hforall Hrun.
  destruct (disconnect_removal_run hostname mid)
    as (s' & Hs' & Em & Esm & Es & Emm & Ec & _).
  rewrite Hs' in Hrun. simplify_eq.
  rewrite Hm, Hsm, Hs, Hmm, Hc in *.
  split; cbn [store suspended].
  - rewrite Esm. by rewrite lookup_delete_ne.
  - rewrite Esm, Es.
    destruct (decide (selectedMachine (store sys) = hostname)).
    + rewrite lookup_delete_ne by done. by eexists.
    + by rewrite lookup_delete_ne.
  - intros h Hh. rewrite Em, Esm. cbn. rewrite !lookup_delete.
    destruct (decide (hostname = h)); [done|]. by apply Hmir.
  - rewrite Em. cbn. rewrite lookup_delete.
    by destruct (decide (hostname = "__proto__")).
  - intros m. rewrite Em, Esm. cbn. rewrite lookup_delete.
    destruct (decide (hostname = "__proto__")); [done|]. apply Hproto.
  - rewrite Emm, Esm, Es.
    destruct (decide (selectedMachine (store sys) = hostname)).
    + rewrite lookup_delete_ne by done. rewrite Hdef.
      unfold machines_get. rewrite Hmir by done. by rewrite Hdef.
    + by rewrite lookup_delete_ne.
  - rewrite Htasks, Ec, Esm.
    destruct (connecting (suspended sys)) as [|h [|]]; try done.
    destruct Hgate as [? Hnone]. split; [done|].
    rewrite lookup_delete. by destruct (decide (hostname = h)).
  - done.
Qed.

Lemma step_consistent sys sys' :
  consistent sys → step sys sys' → consistent sys'.
Proof.
  intros Hcons Hstep.
  destruct Hstep as
    [sys payload r state' Hrun
    |sys hostname before after handshake registration r state' Htasks Hrun
    |sys payload r state' Hrun
    |sys hostname before after teardown r state' Htasks Hrun
    |sys code r state' Hrun
    |sys hostname code before after reply r state' Htasks Hrun].
  - (* connect called *)
    destruct (connect_called_inv _ _ _ _ Hrun)
      as [(e & -> & ->)|(-> & Hne & _ & Hfree & Hgate & ->)].
    { by destruct sys, Hcons. }
    destruct Hcons as [Hdef Hsel Hmir Hop Hproto Hmod Hcg Hdis].
    split; cbn [store suspended]; try done.
    rewrite connecting_app. cbn.
    fold (connecting (suspended sys)).
    destruct (connecting (suspended sys)) as [|h [|]]; try done.
    destruct Hcg; congruence.
  - (* connect settled *)
    destruct Hcons as [Hdef Hsel Hmir Hop Hproto Hmod Hcg Hdis].
    destruct (connecting (suspended sys)) as [|h [|]] eqn:Hconn; try done.
    { rewrite Htasks, connecting_app in Hconn.
      by destruct (connecting before). }
    rewrite Htasks in Hconn.
    destruct (connecting_single _ _ _ _ Hconn) as [-> Hnone].
    destruct Hcg as [Hgate Hfree].
    assert (hostname ≠ "default") as Hne by (intros ->; congruence).
    assert (hostname ≠ selectedMachine (store sys)) as Hns.
    { intros ->. rewrite Hfree in Hsel. by destruct Hsel. }
    destruct (connect_settled_fields _ _ _ _ _ _ Hrun)
      as (-> & Hg' & _ & Hfields).
    assert (disconnecting (before ++ after)
            = disconnecting (suspended sys)) as Hd'.
    { rewrite Htasks. symmetry. by apply disconnecting_skip. }
    assert (∀ m h,
              h ≠ "__proto__" →
              own (machines_set (machines (store sys)) hostname m) !! h
              = <[hostname := m]> (state_machines (store sys)) !! h)
      as Hmir'.
    { intros m h Hh. destruct (decide (h = hostname)) as [->|Hhn].
      - by rewrite lookup_insert_eq, machines_set_own_eq.
      - rewrite lookup_insert_ne, machines_set_own by done. by apply Hmir. }
    assert (∀ m m',
              <[hostname := m]> (state_machines (store sys)) !! "__proto__"
              = Some m' →
              prototype (machines_set (machines (store sys)) hostname m)
              = Some m') as Hproto'.
    { intros m m'. rewrite machines_set_prototype, lookup_insert by done.
      destruct (decide (hostname = "__proto__")); [done|]. apply Hproto. }
    destruct handshake as [e|c]; [|destruct registration as [e|[]]];
      destruct Hfields as (Em & Esm & Es & Emm & _);
      split; cbn [store suspended];
      rewrite ?Hnone, ?Hd', ?Em, ?Esm, ?Es, ?Emm; try done;
      try (by apply machines_set_own_proto);
      try (by apply Hmir'); try (by apply Hproto').
    + by rewrite lookup_insert_ne.
    + by rewrite lookup_insert_ne.
    + by rewrite lookup_insert_ne.
    + by rewrite lookup_insert_ne.
    + rewrite lookup_insert_eq. by eexists.
    + by rewrite lookup_insert_eq.
  - (* disconnect called *)
    destruct (disconnect_called_inv _ _ _ _ Hrun)
      as [(e & -> & ->)|(Hne & _ & Hreg & [(-> & ->)|(-> & Hrem)])].
    + by destruct sys, Hcons.
    + destruct Hcons as [Hdef Hsel Hmir Hop Hproto Hmod Hcg Hdis].
      split; cbn [store suspended]; try done. by constructor.
    + eapply (removal_consistent sys); eauto. by destruct Hcons.
  - (* disconnect settled *)
    destruct (disconnect_settled_run hostname teardown (store sys))
      as (mid & s' & Hs' & Hrem & Em & Esm & Es & Emm & Ec & _).
    rewrite Hs' in Hrun. simplify_eq.
    pose proof (disconnecting_not_default _ Hcons) as Hdis.
    rewrite Htasks, disconnecting_app in Hdis.
    apply Forall_app in Hdis as [Hb Ha]. cbn in Ha.
    apply Forall_cons in Ha as [Hne Ha].
    eapply (removal_consistent sys); eauto.
    + rewrite Htasks. symmetry. by apply connecting_skip.
    + rewrite disconnecting_app. by apply Forall_app.
  - (* sendCode called *)
    run. simplify_eq. by destruct Hcons.
  - (* sendCode settled *)
    assert (machines state' = machines (store sys) ∧
            state_machines state' = state_machines (store sys) ∧
            selectedMachine state' = selectedMachine (store sys) ∧
            machine_module state' = machine_module (store sys) ∧
            isConnecting state' = isConnecting (store sys))
      as (Em & Esm & Es & Emm & Ec).
    { rewrite sendCode_settled_run in Hrun.
      destruct reply as [e|response];
        [destruct (instanceof e DisconnectedError)|]; by simplify_eq. }
    destruct Hcons as [Hdef Hsel Hmir Hop Hproto Hmod Hcg Hdis].
    split; cbn [store suspended]; rewrite ?Em, ?Esm, ?Es, ?Emm, ?Ec; try done.
    + rewrite Htasks in Hcg. by rewrite connecting_skip in Hcg.
    + rewrite Htasks in Hdis. by rewrite disconnecting_skip in Hdis.
Qed.

Lemma reachable_consistent sys : reachable sys → consistent sys.
Proof.
  induction 1 as [|sys sys' _ IH Hstep]; [apply boot_consistent|].
  by apply (step_consistent sys).
Qed.


(** *** connect *)

(** The three refusals of [connect] are told apart by their messages,
    whatever the hostname. *)
Lemma connect_refusals_distinct hostname :
  new_Error "Invalid hostname (default is reserved)"
  ≠ new_Error ("Host " +:+ hostname +:+ " is already connected!") ∧
  new_Error "Invalid hostname (default is reserved)"
  ≠ new_Error "Already connecting" ∧
  new_Error ("Host " +:+ hostname +:+ " is already connected!")
  ≠ new_Error "Already connecting".
Proof. by repeat split. Qed.

(** C1: a connect that succeeds (it returns normally, the handshake and the
    registration having succeeded) leaves the new machine module registered
    under the hostname in [state.machines] and read back by
    [machines[hostname]], the hostname added to the UI module's machines,
    the hostname selected with its module mounted as ['machine'], the gate
    cleared and a ['success'] notification logged; the hostname was not
    ["default"] and not registered before.  Such a connect does succeed
    when the hostname is not ["default"], not registered, no connect is in
    flight and [state.machines.hasOwnProperty] is the inherited method.
    The last part says the same of the part after the [await] alone, for
    any store it resumes on. *)
Theorem connect_success_registers_and_selects payload c state :
  (∀ state',
     connect payload (inr c) (inr tt) state = (inr tt, state') →
     connect_target payload ≠ "default" ∧
     state_machines state !! connect_target payload = None ∧
     state_machines state' !! connect_target payload
     = Some (machine (Some c)) ∧
     machines_get (machines state') (connect_target payload)
     = IsModule (machine (Some c)) ∧
     connect_target payload ∈ ui_machines state' ∧
     selectedMachine state' = connect_target payload ∧
     machine_module state' = Some (machine (Some c)) ∧
     isConnecting state' = false ∧
     journal state'
     = journal state ++
       [Committed (setConnecting true);
        ConnectorConnect (connect_target payload)
          (default "" (c_user payload))
          (default "reprap" (c_password payload));
        Committed (addMachine (connect_target payload) (machine (Some c)));
        Committed (ui_addMachine (connect_target payload));
        ConnectorRegister c (machine (Some c));
        Committed (setSelectedMachine (connect_target payload));
        LoggerLogGlobal "success"
          (i18n_t "notification.connected" [connect_target payload]) None;
        Committed (setConnecting false)]) ∧
  (connect_target payload ≠ "default" →
   state_machines state !! connect_target payload = None →
   state_machines state !! "hasOwnProperty" = None →
   isConnecting state = false →
   ∃ state', connect payload (inr c) (inr tt) state = (inr tt, state')) ∧
  (∀ resumed : Store,
     ∃ state',
       connect_settled (connect_target payload) (inr c) (inr tt) resumed
       = (inr tt, state') ∧
       state_machines state' !! connect_target payload
       = Some (machine (Some c)) ∧
       machines_get (machines state') (connect_target payload)
       = IsModule (machine (Some c)) ∧
       connect_target payload ∈ ui_machines state' ∧
       selectedMachine state' = connect_target payload ∧
       LoggerLogGlobal "success"
         (i18n_t "notification.connected" [connect_target payload]) None
       ∈ journal state').
Proof.
  split; [|split].
  - intros state' Hrun. unfold connect, bind in Hrun.
    destruct (connect_called payload state) as [[e|target] s1] eqn:Hcall;
      [done|].
    destruct (connect_called_inv _ _ _ _ Hcall)
      as [(e & ? & _)|(Ht & Hne & _ & Hfree & _ & ->)]; [done|].
    simplify_eq. cbn in Hrun. unfold commit in Hrun. simplify_eq. cbn.
    rewrite !lookup_insert_eq, !machines_get_set, <- !app_assoc.
    unfold ui_add. repeat split; try done. set_solver.
  - intros Hne Hfree Hshadow Hgate. unfold connect, bind.
    rewrite (connect_called_admits payload state Hne Hshadow Hfree Hgate).
    by eexists.
  - intros resumed. eexists. split; [reflexivity|]. cbn.
    rewrite !lookup_insert_eq, !machines_get_set. unfold ui_add.
    repeat split; try done; [set_solver|].
    rewrite !elem_of_app, !list_elem_of_singleton. auto.
Qed.

(** The refusals of [connect], in the order of the checks, while
    [state.machines.hasOwnProperty] is the inherited method; the test for
    ["default"] comes before that call and needs no such condition. *)
Lemma connect_refusals_in_order payload handshake registration state :
  (connect_target payload = "default" →
   connect payload handshake registration state
   = (inl (new_Error "Invalid hostname (default is reserved)"), state)) ∧
  (connect_target payload ≠ "default" →
   state_machines state !! "hasOwnProperty" = None →
   is_Some (state_machines state !! connect_target payload) →
   connect payload handshake registration state
   = (inl (new_Error ("Host " +:+ connect_target payload
                      +:+ " is already connected!")), state)) ∧
  (connect_target payload ≠ "default" →
   state_machines state !! "hasOwnProperty" = None →
   state_machines state !! connect_target payload = None →
   isConnecting state = true →
   connect payload handshake registration state
   = (inl (new_Error "Already connecting"), state)).
Proof.
  split; [|split].
  - intros Hd. run. by rewrite decide_True.
  - intros Hd Hshadow [m Hm]. run. rewrite decide_False by done.
    rewrite hasOwnProperty_run, Hshadow. by rewrite Hm.
  - intros Hd Hshadow Hfree Hgate. run. rewrite decide_False by done.
    rewrite hasOwnProperty_run, Hshadow. by rewrite Hfree, Hgate.
Qed.

(** While a machine named ["hasOwnProperty"] is registered, the second
    check of [connect] and of [disconnect] throws a [TypeError] for every
    hostname other than ["default"], the store untouched. *)
Lemma connect_shadowed payload handshake registration state :
  is_Some (state_machines state !! "hasOwnProperty") →
  connect_target payload ≠ "default" →
  connect payload handshake registration state
  = (inl {| cls := TypeError; message := not_a_function |}, state).
Proof.
  intros [m Hm] Hd. run. rewrite decide_False by done.
  by rewrite hasOwnProperty_run, Hm.
Qed.


(** C3: the part of [connect] after the [await] never throws and ends by
    committing [setConnecting false], however the handshake and the
    registration went; so a connect that was admitted returns with
    [isConnecting] false, and one that was refused throws the refusal and
    leaves the store alone. *)
Theorem connect_always_clears_gate payload handshake registration state :
  (∀ hostname,
     ∃ state',
       connect_settled hostname handshake registration state
       = (inr tt, state') ∧
       isConnecting state' = false ∧
       last (journal state') = Some (Committed (setConnecting false))) ∧
  match connect_called payload state with
  | (inr hostname, _) =>
      ∃ state',
        connect payload handshake registration state = (inr tt, state') ∧
        isConnecting state' = false ∧
        last (journal state') = Some (Committed (setConnecting false))
  | (inl e, _) =>
      connect payload handshake registration state = (inl e, state)
  end.
Proof.
  split.
  - intros hostname.
    destruct (connect_settled_returns hostname handshake registration state)
      as (state' & Hrun & Hgate & _ & Hlast).
    by exists state'.
  - unfold connect, bind.
    destruct (connect_called payload state) as [[e|hostname] s1] eqn:Hcall.
    + destruct (connect_called_inv _ _ _ _ Hcall)
        as [(e' & ? & ->)|(? & _)]; by simplify_eq.
    + destruct (connect_settled_returns hostname handshake registration s1)
        as (state' & Hrun & Hgate & _ & Hlast).
      by exists state'.
Qed.

(** C4 (as amended): the part of [connect] after the [await] catches a
    failed handshake: it logs an ['error'] notification with the hostname
    and the error's message, returns without throwing, clears the gate and
    leaves [machines], [state.machines], the selection, the mounted module
    and the UI module's machines as they were.  A failure of
    [connectorInstance.register] after a successful handshake is logged
    and swallowed the same way, with the selection unchanged; the module
    added by [addMachine] and [ui/addMachine] before it stays.  A whole
    connect that is admitted and whose handshake fails leaves registry and
    selection as before the call. *)
Theorem connect_failure_logged_not_thrown
    payload hostname e c registration state :
  (∃ state',
     connect_settled hostname (inl e) registration state = (inr tt, state') ∧
     machines state' = machines state ∧
     state_machines state' = state_machines state ∧
     selectedMachine state' = selectedMachine state ∧
     machine_module state' = machine_module state ∧
     ui_machines state' = ui_machines state ∧
     isConnecting state' = false ∧
     journal state'
     = journal state ++
       [LoggerLogGlobal "error" (i18n_t "error.connectError" [hostname])
          (Some (message e));
        Committed (setConnecting false)]) ∧
  (∃ state',
     connect_settled hostname (inr c) (inl e) state = (inr tt, state') ∧
     selectedMachine state' = selectedMachine state ∧
     machine_module state' = machine_module state ∧
     isConnecting state' = false ∧
     machines state'
     = machines_set (machines state) hostname (machine (Some c)) ∧
     state_machines state'
     = <[hostname := machine (Some c)]> (state_machines state) ∧
     ui_machines state' = ui_add hostname (ui_machines state) ∧
     journal state'
     = journal state ++
       [Committed (addMachine hostname (machine (Some c)));
        Committed (ui_addMachine hostname);
        ConnectorRegister c (machine (Some c));
        LoggerLogGlobal "error" (i18n_t "error.connectError" [hostname])
          (Some (message e));
        Committed (setConnecting false)]) ∧
  match connect_called payload state with
  | (inr target, _) =>
      ∃ state',
        connect payload (inl e) registration state = (inr tt, state') ∧
        machines state' = machines state ∧
        state_machines state' = state_machines state ∧
        selectedMachine state' = selectedMachine state ∧
        machine_module state' = machine_module state ∧
        isConnecting state' = false ∧
        LoggerLogGlobal "error" (i18n_t "error.connectError" [target])
          (Some (message e)) ∈ journal state'
  | (inl _, _) => True
  end.
Proof.
  split; [|split].
  - eexists. split; [reflexivity|]. cbn. by rewrite <- !app_assoc.
  - eexists. split; [reflexivity|]. cbn. by rewrite <- !app_assoc.
  - unfold connect, bind.
    destruct (connect_called payload state) as [[e'|target] s1] eqn:Hcall;
      [done|].
    destruct (connect_called_inv _ _ _ _ Hcall)
      as [(e' & ? & _)|(Htarget & _ & _ & _ & _ & ->)]; simplify_eq.
    eexists. split; [reflexivity|]. cbn.
    repeat split; try done.
    rewrite !elem_of_app, !list_elem_of_singleton. auto.
Qed.

(** *** disconnect *)

(** A disconnect that is refused leaves the store alone. *)
Lemma disconnect_refused payload teardown state :
  disconnect_target payload state = "default" ∨
  is_Some (state_machines state !! "hasOwnProperty") ∨
  state_machines state !! disconnect_target payload state = None →
  ∃ e, disconnect payload teardown state = (inl e, state).
Proof.
  intros Hcase. unfold disconnect, bind at 1.
  unfold disconnect_called, bind, get_state, throw.
  destruct (decide (disconnect_target payload state = "default"));
    [by eexists|].
  rewrite hasOwnProperty_run.
  destruct (state_machines state !! "hasOwnProperty") eqn:Hshadow;
    [by eexists|].
  destruct Hcase as [|[[m Hm]|Hnone]]; [done|done|].
  rewrite Hnone. by eexists.
Qed.

(** A disconnect of a registered hostname other than ["default"], run
    without anything in between, while [state.machines.hasOwnProperty] is
    the inherited method. *)
Lemma disconnect_registered_run payload teardown state :
  disconnect_target payload state ≠ "default" →
  state_machines state !! "hasOwnProperty" = None →
  is_Some (state_machines state !! disconnect_target payload state) →
  ∃ state',
    disconnect payload teardown state = (inr tt, state') ∧
    machines state'
    = machines_delete (machines state) (disconnect_target payload state) ∧
    state_machines state'
    = delete (disconnect_target payload state) (state_machines state) ∧
    selectedMachine state'
    = (if decide (selectedMachine state = disconnect_target payload state)
       then "default" else selectedMachine state) ∧
    machine_module state'
    = (if decide (selectedMachine state = disconnect_target payload state)
       then mounted (machines_get (machines state) "default")
       else machine_module state) ∧
    isConnecting state' = isConnecting state ∧
    isDisconnecting state'
    = (if disconnect_live payload then false else isDisconnecting state) ∧
    ui_machines state' = ui_machines state ∧
    journal state'
    = journal state
      ++ (if disconnect_live payload
          then
            [Committed (setDisconnecting true);
             Dispatched ("machines/" +:+ disconnect_target payload state
                         +:+ "/disconnect") None]
            ++ match teardown with
               | inr _ =>
                   [LoggerLogGlobal "success"
                      (i18n_t "notification.disconnected"
                         [disconnect_target payload state]) None]
               | inl e =>
                   [LoggerLogGlobal "warning"
                      (i18n_t "error.disconnectError"
                         [disconnect_target payload state])
                      (Some (message e));
                    ConsoleWarn e]
               end
            ++ [Committed (setDisconnecting false)]
          else [])
      ++ [Committed (machines_unregister (disconnect_target payload state))]
      ++ (if decide (selectedMachine state = disconnect_target payload state)
          then [Committed (setSelectedMachine "default")] else [])
      ++ [Committed (removeMachine (disconnect_target payload state))].
Proof.
  intros Hne Hshadow [m Hm].
  set (hostname := disconnect_target payload state) in *.
  unfold disconnect, bind at 1.
  unfold disconnect_called, bind, get_state, throw.
  fold hostname. rewrite decide_False by done.
  rewrite hasOwnProperty_run, Hshadow, Hm.
  cbv beta iota delta [negb].
  destruct (disconnect_live payload).
  - unfold commit at 1, emit at 1, ret.
    match goal with
    | |- context [disconnect_settled hostname teardown ?s] =>
        destruct (disconnect_settled_run hostname teardown s)
          as (mid & s' & Hs' & Hrem & Em & Esm & Es & Emm & Ec & Ed & Eu & Ej)
    end.
    destruct (disconnect_removal_run hostname mid)
      as (s'' & Hs'' & Rm & Rsm & Rs & Rmm & Rc & Rd & Ru & Rj).
    rewrite Hrem in Hs''. simplify_eq.
    exists s''. split; [exact Hs'|].
    rewrite Rm, Rsm, Rs, Rmm, Rc, Rd, Ru, Rj, Em, Esm, Es, Emm, Ec, Ed, Eu, Ej.
    cbn. rewrite <- !app_assoc. done.
  - destruct (disconnect_removal_run hostname state)
      as (s'' & Hs'' & Rm & Rsm & Rs & Rmm & Rc & Rd & Ru & Rj).
    rewrite Hs''. unfold ret. exists s''. done.
Qed.

(** A disconnect run without anything in between either is refused, the
    store untouched, or returns with its hostname removed and ["default"]
    selected if its hostname was. *)
Lemma disconnect_cases payload teardown state :
  (∃ e, disconnect payload teardown state = (inl e, state)) ∨
  (∃ state',
     disconnect payload teardown state = (inr tt, state') ∧
     selectedMachine state'
     = (if decide (selectedMachine state = disconnect_target payload state)
        then "default" else selectedMachine state)).
Proof.
  destruct (decide (disconnect_target payload state = "default")) as [Hd|Hd].
  { left. apply disconnect_refused. auto. }
  destruct (state_machines state !! "hasOwnProperty") eqn:Hshadow.
  { left. apply disconnect_refused. right. left. rewrite Hshadow.
    by eexists. }
  destruct (state_machines state !! disconnect_target payload state)
    as [m|] eqn:Hm.
  2: { left. apply disconnect_refused. auto. }
  right.
  destruct (disconnect_registered_run payload teardown state Hd Hshadow)
    as (s' & Hs' & _ & _ & Es & _); [by eexists|].
  by exists s'.
Qed.

(** The part of [disconnect] after the [await], on any store it resumes
    on: the hostname is removed, the flag cleared, and ["default"] selected
    if the hostname is the selected one there. *)
Lemma disconnect_settled_effect hostname teardown state :
  ∃ state',
    disconnect_settled hostname teardown state = (inr tt, state') ∧
    state_machines state' = delete hostname (state_machines state) ∧
    isDisconnecting state' = false ∧
    selectedMachine state'
    = (if decide (selectedMachine state = hostname)
       then "default" else selectedMachine state).
Proof.
  destruct (disconnect_settled_run hostname teardown state)
    as (mid & s' & Hs' & Hrem & _ & Esm & Es & _ & _ & Ed & _).
  destruct (disconnect_removal_run hostname mid)
    as (s'' & Hs'' & _ & Rsm & Rs & _ & _ & Rd & _).
  rewrite Hrem in Hs''. simplify_eq.
  exists s''. by rewrite Rsm, Rs, Rd, Esm, Es, Ed.
Qed.

(** C5 (as amended): in a reachable store where
    [state.machines.hasOwnProperty] is the inherited method, a disconnect of
    a registered hostname other than ["default"] returns without throwing,
    for either outcome of the teardown and with or without [doDisconnect]:
    the hostname is gone from [state.machines] and from the own properties
    of [machines], ["default"] is selected if the hostname was, a failed
    teardown is logged as a ['warning'], the machine module's [unregister]
    is committed before [removeMachine], and [isDisconnecting] is false
    after a live teardown and left as it was when [doDisconnect] is false.
    A disconnect of a hostname that is not registered throws the
    already-disconnected error and leaves the store alone.  The part after
    the [await] of a suspended disconnect, whatever ran in between, removes
    the hostname and clears the flag. *)
Theorem disconnect_removes_whatever_teardown sys payload teardown :
  reachable sys →
  disconnect_target payload (store sys) ≠ "default" →
  state_machines (store sys) !! "hasOwnProperty" = None →
  match state_machines (store sys) !! disconnect_target payload (store sys)
  with
  | Some _ =>
      ∃ state',
        disconnect payload teardown (store sys) = (inr tt, state') ∧
        state_machines state' !! disconnect_target payload (store sys)
        = None ∧
        own (machines state') !! disconnect_target payload (store sys)
        = None ∧
        state_machines state'
        = delete (disconnect_target payload (store sys))
            (state_machines (store sys)) ∧
        selectedMachine state'
        = (if decide (selectedMachine (store sys)
                      = disconnect_target payload (store sys))
           then "default" else selectedMachine (store sys)) ∧
        isDisconnecting state'
        = (if disconnect_live payload then false
           else isDisconnecting (store sys)) ∧
        journal state'
        = journal (store sys)
          ++ (if disconnect_live payload
              then
                [Committed (setDisconnecting true);
                 Dispatched ("machines/"
                             +:+ disconnect_target payload (store sys)
                             +:+ "/disconnect") None]
                ++ match teardown with
                   | inr _ =>
                       [LoggerLogGlobal "success"
                          (i18n_t "notification.disconnected"
                             [disconnect_target payload (store sys)]) None]
                   | inl e =>
                       [LoggerLogGlobal "warning"
                          (i18n_t "error.disconnectError"
                             [disconnect_target payload (store sys)])
                          (Some (message e));
                        ConsoleWarn e]
                   end
                ++ [Committed (setDisconnecting false)]
              else [])
          ++ [Committed
                (machines_unregister (disconnect_target payload (store sys)))]
          ++ (if decide (selectedMachine (store sys)
                         = disconnect_target payload (store sys))
              then [Committed (setSelectedMachine "default")] else [])
          ++ [Committed
                (removeMachine (disconnect_target payload (store sys)))]
  | None =>
      disconnect payload teardown (store sys)
      = (inl (new_Error ("Host " +:+ disconnect_target payload (store sys)
                         +:+ " is already disconnected!")), store sys)
  end ∧
  (∀ hostname outcome,
     ∃ state',
       disconnect_settled hostname outcome (store sys) = (inr tt, state') ∧
       state_machines state' !! hostname = None ∧
       isDisconnecting state' = false).
Proof.
  intros Hreach Hne Hshadow. split.
  - destruct (state_machines (store sys)
              !! disconnect_target payload (store sys)) as [m|] eqn:Hm.
    + destruct (disconnect_registered_run payload teardown (store sys)
                  Hne Hshadow)
        as (s' & Hs' & Em & Esm & Es & _ & _ & Ed & _ & Ej); [by eexists|].
      exists s'. rewrite Em, Esm, Es, Ed, Ej. cbn.
      rewrite !lookup_delete_eq. done.
    + unfold disconnect, bind at 1.
      unfold disconnect_called, bind, get_state, throw.
      rewrite decide_False by done.
      rewrite hasOwnProperty_run, Hshadow. by rewrite Hm.
  - intros hostname outcome.
    destruct (disconnect_settled_effect hostname outcome (store sys))
      as (s' & Hs' & Esm & Ed & _).
    exists s'. by rewrite Esm, Ed, lookup_delete_eq.
Qed.

(** C6 (as amended): in every reachable system the selected hostname is
    registered in [state.machines], and the module mounted as ['machine']
    is the one registered under it.  The removal steps of [disconnect], run
    with their hostname selected, commit [setSelectedMachine 'default']
    before [removeMachine]: the store right before [removeMachine] has
    ["default"] selected and the registry still whole.  The part after the
    [await], on the store it resumes on, ends with ["default"] selected if
    its hostname is the selected one there, and leaves the selection alone
    otherwise.  A disconnect aimed at the selected machine and run without
    anything in between either is refused, the store untouched, or ends
    with ["default"] selected, whether the teardown succeeds or fails. *)
Theorem selection_stays_registered sys :
  reachable sys →
  is_Some (state_machines (store sys) !! selectedMachine (store sys)) ∧
  machine_module (store sys)
  = state_machines (store sys) !! selectedMachine (store sys) ∧
  (∀ hostname,
     selectedMachine (store sys) = hostname →
     ∃ before_removal,
       disconnect_removal hostname (store sys)
       = commit (removeMachine hostname) before_removal ∧
       selectedMachine before_removal = "default" ∧
       state_machines before_removal = state_machines (store sys) ∧
       journal before_removal
       = journal (store sys) ++ [Committed (machines_unregister hostname);
                                 Committed (setSelectedMachine "default")]) ∧
  (∀ hostname teardown,
     ∃ state',
       disconnect_settled hostname teardown (store sys) = (inr tt, state') ∧
       selectedMachine state'
       = (if decide (selectedMachine (store sys) = hostname)
          then "default" else selectedMachine (store sys))) ∧
  (∀ payload teardown,
     disconnect_target payload (store sys) = selectedMachine (store sys) →
     match disconnect payload teardown (store sys) with
     | (inr _, state') => selectedMachine state' = "default"
     | (inl _, state') => state' = store sys
     end).
Proof.
  intros Hreach. pose proof (reachable_consistent sys Hreach) as Hcons.
  split; [apply Hcons|]. split; [apply Hcons|]. split; [|split].
  - intros hostname Hsel. run. cbn.
    rewrite decide_True by done. eexists. split; [reflexivity|].
    cbn. by rewrite <- !app_assoc.
  - intros hostname teardown.
    destruct (disconnect_settled_effect hostname teardown (store sys))
      as (s' & Hs' & _ & _ & Es).
    by exists s'.
  - intros payload teardown Htarget.
    destruct (disconnect_cases payload teardown (store sys))
      as [[e ->]|(s' & -> & Es)]; [done|].
    rewrite Es, Htarget. by rewrite decide_True.
Qed.

(** What a call of [disconnect] returns, read off its two checks. *)
Lemma disconnect_called_verdict payload state :
  (disconnect_called payload state).1
  = if decide (disconnect_target payload state = "default")
    then inl (new_Error "Invalid hostname (default is reserved)")
    else
      match state_machines state !! "hasOwnProperty" with
      | Some _ => inl {| cls := TypeError; message := not_a_function |}
      | None =>
          match state_machines state !! disconnect_target payload state with
          | None =>
              inl (new_Error ("Host " +:+ disconnect_target payload state
                              +:+ " is already disconnected!"))
          | Some _ =>
              if disconnect_live payload
              then inr (Some (disconnect_target payload state))
              else inr None
          end
      end.
Proof.
  unfold disconnect_called, bind, get_state, throw.
  destruct (decide (disconnect_target payload state = "default")); [done|].
  rewrite hasOwnProperty_run.
  destruct (state_machines state !! "hasOwnProperty"); [done|].
  destruct (state_machines state !! disconnect_target payload state);
    cbv beta iota delta [negb]; [|done].
  destruct (disconnect_live payload); [done|].
  by destruct (disconnect_removal_run
                 (disconnect_target payload state) state) as (s1 & -> & _).
Qed.

(** C7 (as amended): in every reachable system at most one connect is
    suspended, and exactly one when [isConnecting] is set; while it is set
    every further connect is refused with the store untouched.  The
    disconnect action never tests [isDisconnecting]: what a call of it
    returns is the same whatever the flag is, and a call aimed at a
    registered hostname other than ["default"] is admitted whatever is in
    flight (as long as [state.machines.hasOwnProperty] is the inherited
    method). *)
Theorem connect_is_single_flight sys :
  reachable sys →
  connects_in_flight sys
  = (if isConnecting (store sys) then 1%nat else 0%nat) ∧
  (∀ payload,
     isConnecting (store sys) = true →
     ∃ e, connect_called payload (store sys) = (inl e, store sys)) ∧
  (∀ payload flag,
     (disconnect_called payload
        (apply_mutation (setDisconnecting flag) (store sys))).1
     = (disconnect_called payload (store sys)).1) ∧
  (∀ payload,
     disconnect_target payload (store sys) ≠ "default" →
     state_machines (store sys) !! "hasOwnProperty" = None →
     is_Some (state_machines (store sys)
              !! disconnect_target payload (store sys)) →
     (disconnect_called payload (store sys)).1
     = inr (if disconnect_live payload
            then Some (disconnect_target payload (store sys)) else None)).
Proof.
  intros Hreach. pose proof (reachable_consistent sys Hreach) as Hcons.
  split; [|split; [|split]].
  - pose proof (connect_gate _ Hcons) as Hgate. unfold connects_in_flight.
    destruct (connecting (suspended sys)) as [|h [|]]; try done.
    + by rewrite Hgate.
    + destruct Hgate as [-> _]. done.
  - intros payload Hflag. run.
    destruct (decide (connect_target payload = "default")); [by eexists|].
    rewrite hasOwnProperty_run.
    destruct (state_machines (store sys) !! "hasOwnProperty");
      [by eexists|].
    destruct (state_machines (store sys) !! connect_target payload);
      [by eexists|].
    rewrite Hflag. by eexists.
  - intros payload flag. by rewrite !disconnect_called_verdict.
  - intros payload Hne Hshadow [m Hm]. rewrite disconnect_called_verdict.
    rewrite decide_False by done. rewrite Hshadow, Hm.
    by destruct (disconnect_live payload).
Qed.

(** *** sendCode *)

(** [instanceof] on the two classes [sendCode] tests: neither has a
    subclass. *)
Lemma instanceof_DisconnectedError e :
  instanceof e DisconnectedError = bool_decide (cls e = DisconnectedError).
Proof. unfold instanceof. by destruct (cls e). Qed.

Lemma instanceof_CodeBufferError e :
  instanceof e CodeBufferError = bool_decide (cls e = CodeBufferError).
Proof. unfold instanceof. by destruct (cls e). Qed.

(** C8: [sendCode] dispatches the code to the machine selected when it is
    called.  When the reply arrives, the code and the response are passed
    to [Logger.logCode] with that hostname and nothing is thrown.  When the
    dispatch fails the same error is thrown again, after: nothing logged
    for a [DisconnectedError], a ['warning'] for a [CodeBufferError], an
    ['error'] for an error of any other class.  Nothing but the journal
    changes. *)
Theorem sendCode_logs_by_class_and_rethrows code reply state :
  ∃ state',
    sendCode code reply state
    = (match reply with inr _ => inr tt | inl e => inl e end, state') ∧
    journal state'
    = journal state
      ++ [Dispatched ("machines/" +:+ selectedMachine state +:+ "/sendCode")
            (Some code)]
      ++ match reply with
         | inr response =>
             [LoggerLogCode code response (selectedMachine state)]
         | inl e =>
             match cls e with
             | DisconnectedError => []
             | CodeBufferError => [StoreLog "warning" (message e)]
             | _ => [StoreLog "error" (message e)]
             end
         end ∧
    state_machines state' = state_machines state ∧
    selectedMachine state' = selectedMachine state ∧
    isConnecting state' = isConnecting state ∧
    isDisconnecting state' = isDisconnecting state.
Proof.
  unfold sendCode, bind at 1.
  unfold sendCode_called, bind, get_state, emit, ret.
  rewrite sendCode_settled_run.
  destruct reply as [e|response].
  - rewrite instanceof_DisconnectedError, instanceof_CodeBufferError.
    eexists. split; [reflexivity|].
    destruct (cls e); repeat case_bool_decide; simplify_eq; cbn;
      rewrite <- ?app_assoc; done.
  - eexists. split; [reflexivity|]. cbn. by rewrite <- app_assoc.
Qed.

(** *** Getters *)

(** C9 (as amended): in every reachable system [isConnected] holds exactly
    when the selected hostname is not ["default"]; it is false in the
    initial store.  After the part of a disconnect that follows the
    [await] it is false if the hostname is the selected one on the store
    that part resumes on, and what it was there otherwise; and a disconnect
    aimed at the selected machine and run without anything in between
    either is refused, the store untouched, or ends with [isConnected]
    false. *)
Theorem isConnected_iff_not_default sys :
  reachable sys →
  (isConnected (store sys) = true
   ↔ selectedMachine (store sys) ≠ "default") ∧
  isConnected initial = false ∧
  (∀ hostname teardown,
     ∃ state',
       disconnect_settled hostname teardown (store sys) = (inr tt, state') ∧
       isConnected state'
       = (if decide (selectedMachine (store sys) = hostname)
          then false else isConnected (store sys))) ∧
  (∀ payload teardown,
     disconnect_target payload (store sys) = selectedMachine (store sys) →
     match disconnect payload teardown (store sys) with
     | (inr _, state') => isConnected state' = false
     | (inl _, state') => state' = store sys
     end).
Proof.
  intros Hreach. split; [|split; [|split]].
  - unfold isConnected. rewrite negb_true_iff, bool_decide_eq_false. done.
  - done.
  - intros hostname teardown.
    destruct (disconnect_settled_effect hostname teardown (store sys))
      as (s' & Hs' & _ & _ & Es).
    exists s'. split; [done|]. unfold isConnected.
    rewrite Es. by case_decide.
  - intros payload teardown Htarget.
    destruct (disconnect_cases payload teardown (store sys))
      as [[e ->]|(s' & -> & Es)]; [done|].
    unfold isConnected. rewrite Es, Htarget. by rewrite decide_True.
Qed.

End WithSurroundings.
End StoreFacts.

(** ** The theorems at work in the concrete setting *)

Module Examples.
Import Errors Store StoreFacts Lab.

#[local] Existing Instance surroundings.

(** A step given by the store and the suspended tasks it leads to. *)
Lemma connect_called_step sys sys' payload :
  store sys' = (connect_called payload (store sys)).2 →
  suspended sys'
  = spawned (connect_called payload (store sys)).1 (λ h, [Connecting h])
    ++ suspended sys →
  step sys sys'.
Proof.
  destruct sys' as [state' tasks']; cbn [store suspended]. intros -> ->.
  apply (step_connect_called sys payload). by destruct (connect_called _ _).
Qed.

Lemma connect_settled_step sys sys' hostname before after handshake
    registration :
  suspended sys = before ++ Connecting hostname :: after →
  store sys'
  = (connect_settled hostname handshake registration (store sys)).2 →
  suspended sys' = before ++ after →
  step sys sys'.
Proof.
  destruct sys' as [state' tasks']; cbn [store suspended]. intros Hs -> ->.
  apply (step_connect_settled sys hostname before after handshake
            registration
            (connect_settled hostname handshake registration (store sys)).1);
    [exact Hs|].
  by destruct (connect_settled hostname handshake registration (store sys)).
Qed.

Lemma disconnect_called_step sys sys' payload :
  store sys' = (disconnect_called payload (store sys)).2 →
  suspended sys'
  = spawned (disconnect_called payload (store sys)).1
      (λ a, match a with Some h => [Disconnecting h] | None => [] end)
    ++ suspended sys →
  step sys sys'.
Proof.
  destruct sys' as [state' tasks']; cbn [store suspended]. intros -> ->.
  apply (step_disconnect_called sys payload).
  by destruct (disconnect_called _ _).
Qed.

Lemma disconnect_settled_step sys sys' hostname before after teardown :
  suspended sys = before ++ Disconnecting hostname :: after →
  store sys' = (disconnect_settled hostname teardown (store sys)).2 →
  suspended sys' = before ++ after →
  step sys sys'.
Proof.
  destruct sys' as [state' tasks']; cbn [store suspended]. intros Hs -> ->.
  apply (step_disconnect_settled sys hostname before after teardown
            (disconnect_settled hostname teardown (store sys)).1);
    [exact Hs|].
  by destruct (disconnect_settled hostname teardown (store sys)).
Qed.

Ltac evaluate := vm_compute; reflexivity.

Lemma handshaking_step : step boot handshaking.
Proof.
  apply (connect_called_step _ _ printer); evaluate.
Qed.

Lemma handshaking_reachable : reachable handshaking.
Proof.
  apply (reachable_step boot); [constructor|].
  apply handshaking_step.
Qed.

Lemma online_step : step handshaking online.
Proof.
  apply (connect_settled_step _ _ "10.0.0.5" [] [] (inr 7%nat) (inr tt));
    evaluate.
Qed.

Lemma online_reachable : reachable online.
Proof.
  apply (reachable_step handshaking); [apply handshaking_reachable|].
  apply online_step.
Qed.

Lemma tearing_down_step : step online tearing_down.
Proof.
  apply (disconnect_called_step _ _ None); evaluate.
Qed.

Lemma tearing_down_reachable : reachable tearing_down.
Proof.
  apply (reachable_step online); [apply online_reachable|].
  apply tearing_down_step.
Qed.

Lemma tearing_down_twice_step : step tearing_down tearing_down_twice.
Proof.
  apply (disconnect_called_step _ _ None); evaluate.
Qed.

Lemma tearing_down_twice_reachable : reachable tearing_down_twice.
Proof.
  apply (reachable_step tearing_down); [apply tearing_down_reachable|].
  apply tearing_down_twice_step.
Qed.

Lemma shadowed_handshaking_step : step boot shadowed_handshaking.
Proof.
  apply (connect_called_step _ _ shadow); evaluate.
Qed.

Lemma shadowed_handshaking_reachable : reachable shadowed_handshaking.
Proof.
  apply (reachable_step boot); [constructor|].
  apply shadowed_handshaking_step.
Qed.

Lemma shadowed_online_step : step shadowed_handshaking shadowed_online.
Proof.
  apply (connect_settled_step _ _ "hasOwnProperty" [] [] (inr 9%nat)
           (inr tt)); evaluate.
Qed.

Lemma shadowed_online_reachable : reachable shadowed_online.
Proof.
  apply (reachable_step shadowed_handshaking);
    [apply shadowed_handshaking_reachable|].
  apply shadowed_online_step.
Qed.

Lemma second_handshaking_step : step online second_handshaking.
Proof.
  apply (connect_called_step _ _ second_printer); evaluate.
Qed.

Lemma second_handshaking_reachable : reachable second_handshaking.
Proof.
  apply (reachable_step online); [apply online_reachable|].
  apply second_handshaking_step.
Qed.

Lemma leaving_step : step second_handshaking leaving.
Proof.
  apply (disconnect_called_step _ _ None); evaluate.
Qed.

Lemma leaving_reachable : reachable leaving.
Proof.
  apply (reachable_step second_handshaking);
    [apply second_handshaking_reachable|].
  apply leaving_step.
Qed.

Lemma overtaken_step : step leaving overtaken.
Proof.
  apply (connect_settled_step _ _ "10.0.0.6" [Disconnecting "10.0.0.5"] []
           (inr 8%nat) (inr tt)); evaluate.
Qed.

Lemma overtaken_reachable : reachable overtaken.
Proof.
  apply (reachable_step leaving); [apply leaving_reachable|].
  apply overtaken_step.
Qed.

Lemma left_behind_step : step overtaken left_behind.
Proof.
  apply (disconnect_settled_step _ _ "10.0.0.5" [] [] (inr tt)); evaluate.
Qed.

Lemma left_behind_reachable : reachable left_behind.
Proof.
  apply (reachable_step overtaken); [apply overtaken_reachable|].
  apply left_behind_step.
Qed.

Lemma both_online_step : step second_handshaking both_online.
Proof.
  apply (connect_settled_step _ _ "10.0.0.6" [] [] (inr 8%nat) (inr tt));
    evaluate.
Qed.

Lemma both_online_reachable : reachable both_online.
Proof.
  apply (reachable_step second_handshaking);
    [apply second_handshaking_reachable|].
  apply both_online_step.
Qed.

Lemma first_leaving_step : step both_online first_leaving.
Proof.
  apply (disconnect_called_step _ _
           (Some {| d_hostname := "10.0.0.5"; d_doDisconnect := None |}));
    evaluate.
Qed.

Lemma first_leaving_reachable : reachable first_leaving.
Proof.
  apply (reachable_step both_online); [apply both_online_reachable|].
  apply first_leaving_step.
Qed.

(** With the theorem of C1: [connect(printer)] on the initial store. *)
Lemma connect_success_witness :
  ∃ state',
    connect (env := surroundings) printer (inr 7%nat) (inr tt) initial
    = (inr tt, state') ∧
    state_machines state' !! "10.0.0.5"
    = Some (machine (env := surroundings) (Some 7%nat)) ∧
    "10.0.0.5" ∈ ui_machines state' ∧
    selectedMachine state' = "10.0.0.5".
Proof.
  assert (connect_target (env := surroundings) printer ≠ "default") as H1
    by (vm_compute; discriminate).
  assert (state_machines (env := surroundings) initial
          !! connect_target printer = None) as H2
    by (vm_compute; reflexivity).
  assert (state_machines (env := surroundings) initial
          !! "hasOwnProperty" = None) as H3
    by (vm_compute; reflexivity).
  assert (isConnecting (env := surroundings) initial = false) as H4
    by reflexivity.
  destruct (connect_success_registers_and_selects (env := surroundings)
              printer 7%nat initial) as (Hafter & Hruns & _).
  destruct (Hruns H1 H2 H3 H4) as [state' Hrun].
  destruct (Hafter state' Hrun) as (_ & _ & Hsm & _ & Hui & Hsel & _).
  exists state'. repeat split; assumption.
Defined.

(** C2 fails on the code: once a machine named ["hasOwnProperty"] is
    connected (which the initial store allows), a second connect to it
    meets the second check with its hostname registered and should throw
    the already-connected error; it throws the [TypeError] of the call
    instead, the store untouched. *)
Lemma connect_refusals_shadowed :
  (connect (env := surroundings) shadow (inr 9%nat) (inr tt) initial).1
  = inr tt ∧
  reachable shadowed_online ∧
  connect_target shadow ≠ "default" ∧
  is_Some (state_machines shadowed !! connect_target shadow) ∧
  connect shadow (inr 9%nat) (inr tt) shadowed
  = (inl {| cls := TypeError;
            message := "state.machines.hasOwnProperty is not a function" |},
     shadowed) ∧
  connect shadow (inr 9%nat) (inr tt) shadowed
  ≠ (inl (new_Error "Host hasOwnProperty is already connected!"), shadowed).
Proof.
  assert (connect shadow (inr 9%nat) (inr tt) shadowed
          = (inl {| cls := TypeError;
                    message :=
                      "state.machines.hasOwnProperty is not a function" |},
             shadowed)) as Hrun
    by (vm_compute; reflexivity).
  split; [vm_compute; reflexivity|].
  split; [exact shadowed_online_reachable|].
  split; [vm_compute; discriminate|].
  split; [eexists; vm_compute; reflexivity|].
  split; [exact Hrun|].
  rewrite Hrun. intros Heq. inversion Heq.
Qed.

(** C4 fails as stated: the connect of [printer] is admitted on the
    initial store, the handshake succeeds and
    [connectorInstance.register] throws; the connect returns normally, and
    the machine that was not registered before the call is registered
    after it. *)
Lemma connect_register_failure_keeps_machine :
  (connect_called (env := surroundings) printer initial).1
  = inr "10.0.0.5" ∧
  (connect (env := surroundings) printer (inr 7%nat) (inl boom) initial).1
  = inr tt ∧
  state_machines (env := surroundings) initial !! "10.0.0.5" = None ∧
  state_machines half_connected !! "10.0.0.5"
  = Some (machine (env := surroundings) (Some 7%nat)) ∧
  state_machines half_connected ≠ state_machines initial.
Proof.
  assert (state_machines half_connected !! "10.0.0.5"
          = Some (machine (env := surroundings) (Some 7%nat))) as Hin
    by (vm_compute; reflexivity).
  repeat split; try (vm_compute; reflexivity).
  intros Heq. rewrite Heq in Hin. vm_compute in Hin. discriminate.
Qed.

(** With the theorem of C5: [disconnect()] with the machine connected,
    the teardown failing. *)
Lemma disconnect_removes_witness :
  (reachable online ∧
   disconnect_target None (store online) ≠ "default" ∧
   state_machines (store online) !! "hasOwnProperty" = None) ∧
  ∃ state',
    disconnect (env := surroundings) None (inl boom) (store online)
    = (inr tt, state') ∧
    state_machines state' !! "10.0.0.5" = None ∧
    isDisconnecting state' = false.
Proof.
  assert (disconnect_target None (store online) ≠ "default") as H1
    by (vm_compute; discriminate).
  assert (state_machines (store online) !! "hasOwnProperty" = None) as H2
    by (vm_compute; reflexivity).
  split; [by repeat split; try exact online_reachable|].
  pose proof (proj1 (disconnect_removes_whatever_teardown
                       (env := surroundings) online None (inl boom)
                       online_reachable H1 H2)) as Hthm.
  change (state_machines (store online)
          !! disconnect_target None (store online))
    with (Some (machine (env := surroundings) (Some 7%nat))) in Hthm.
  destruct Hthm as (state' & Hrun & Hgone & _ & _ & _ & Hflag & _).
  exists state'. repeat split; assumption.
Defined.

(** C5 fails as stated: with both machines connected and a disconnect of
    the first suspended at its teardown, a disconnect of the second that
    skips the teardown returns with the second removed and
    [isDisconnecting] still true. *)
Lemma fast_disconnect_leaves_flag :
  reachable first_leaving ∧
  is_Some (state_machines (store first_leaving) !! "10.0.0.6") ∧
  (disconnect (env := surroundings) drop_second (inr tt)
     (store first_leaving)).1 = inr tt ∧
  state_machines
    (disconnect (env := surroundings) drop_second (inr tt)
       (store first_leaving)).2 !! "10.0.0.6" = None ∧
  isDisconnecting
    (disconnect (env := surroundings) drop_second (inr tt)
       (store first_leaving)).2 = true.
Proof.
  split; [exact first_leaving_reachable|].
  split; [eexists; vm_compute; reflexivity|].
  repeat split; vm_compute; reflexivity.
Qed.

(** With the theorem of C6: the machine connected and selected. *)
Lemma selection_stays_registered_witness :
  reachable online ∧
  is_Some (state_machines (store online) !! selectedMachine (store online)) ∧
  ∃ state',
    disconnect_settled (env := surroundings) "10.0.0.5" (inl boom)
      (store online) = (inr tt, state') ∧
    selectedMachine state' = "default".
Proof.
  split; [exact online_reachable|].
  destruct (selection_stays_registered online online_reachable)
    as (Hreg & _ & _ & Hsettled & _).
  split; [exact Hreg|].
  destruct (Hsettled "10.0.0.5" (inl boom)) as (state' & Hrun & Hsel).
  exists state'. split; [exact Hrun|]. exact Hsel.
Defined.

(** C6 fails as stated: [disconnect()] is called while the first machine is
    the selected one; the connect of the second machine settles during the
    teardown; when the teardown has settled the first machine is gone and
    the second one is selected, not ["default"]. *)
Lemma selection_survives_disconnect :
  reachable second_handshaking ∧
  disconnect_target None (store second_handshaking)
  = selectedMachine (store second_handshaking) ∧
  selectedMachine (store second_handshaking) = "10.0.0.5" ∧
  step second_handshaking leaving ∧
  step leaving overtaken ∧
  step overtaken left_behind ∧
  suspended left_behind = [] ∧
  state_machines (store left_behind) !! "10.0.0.5" = None ∧
  selectedMachine (store left_behind) = "10.0.0.6" ∧
  selectedMachine (store left_behind) ≠ "default".
Proof.
  split; [exact second_handshaking_reachable|].
  split; [reflexivity|].
  split; [vm_compute; reflexivity|].
  split; [exact leaving_step|].
  split; [exact overtaken_step|].
  split; [exact left_behind_step|].
  split; [reflexivity|].
  split; [vm_compute; reflexivity|].
  split; [vm_compute; reflexivity|].
  vm_compute. discriminate.
Qed.

(** With the theorem of C7: a connect suspended at its handshake. *)
Lemma connect_is_single_flight_witness :
  reachable handshaking ∧ connects_in_flight handshaking = 1%nat.
Proof.
  split; [exact handshaking_reachable|].
  destruct (connect_is_single_flight handshaking handshaking_reachable)
    as (Hcount & _).
  rewrite Hcount. reflexivity.
Defined.

(** C7 fails as stated: with one [disconnect()] suspended at its teardown
    and [isDisconnecting] set, a second [disconnect()] is admitted, and two
    disconnects are in flight. *)
Lemma second_disconnect_admitted :
  reachable tearing_down ∧
  isDisconnecting (store tearing_down) = true ∧
  disconnects_in_flight tearing_down = 1%nat ∧
  (disconnect_called None (store tearing_down)).1
  = inr (Some "10.0.0.5") ∧
  reachable tearing_down_twice ∧
  disconnects_in_flight tearing_down_twice = 2%nat.
Proof.
  split; [exact tearing_down_reachable|].
  split; [vm_compute; reflexivity|].
  split; [reflexivity|].
  split; [vm_compute; reflexivity|].
  split; [exact tearing_down_twice_reachable|reflexivity].
Qed.

(** With the theorem of C9: the machine connected and selected. *)
Lemma isConnected_iff_not_default_witness :
  reachable online ∧
  isConnected (store online) = true ∧
  ∃ state',
    disconnect_settled (env := surroundings) "10.0.0.5" (inr tt)
      (store online) = (inr tt, state') ∧
    isConnected state' = false.
Proof.
  split; [exact online_reachable|].
  destruct (isConnected_iff_not_default online online_reachable)
    as (Hiff & _ & Hafter & _).
  split.
  - apply Hiff. vm_compute. discriminate.
  - destruct (Hafter "10.0.0.5" (inr tt)) as (state' & Hrun & Hoff).
    exists state'. split; [exact Hrun|].
    rewrite Hoff. vm_compute. reflexivity.
Defined.

(** C9 fails as stated: the machine that was the selected one when
    [disconnect()] was called has been disconnected, and [isConnected] is
    still true, the second machine having been selected during the
    teardown. *)
Lemma isConnected_survives_disconnect :
  reachable leaving ∧
  Disconnecting (selectedMachine (store second_handshaking))
  ∈ suspended leaving ∧
  step leaving overtaken ∧
  step overtaken left_behind ∧
  suspended left_behind = [] ∧
  state_machines (store left_behind) !! "10.0.0.5" = None ∧
  isConnected (store left_behind) = true.
Proof.
  split; [exact leaving_reachable|].
  split; [vm_compute; constructor|].
  split; [exact overtaken_step|].
  split; [exact left_behind_step|].
  split; [reflexivity|].
  split; vm_compute; reflexivity.
Qed.

End Examples.

(** ** More on utils/errors.js *)

Module ErrorsLaws.
Import Errors.

(** [instanceof] orders the classes: every error is an instance of its own
    class and of [Error]; an instance of a class is an instance of what that
    class extends, however far up; and two classes that are instances of
    each other are the same class.  The message plays no part. *)
Theorem instanceof_orders_classes :
  (∀ e, instanceof e (cls e) = true) ∧
  (∀ e, instanceof e Error = true) ∧
  (∀ e d f m,
     instanceof e d = true →
     instanceof {| cls := d; message := m |} f = true →
     instanceof e f = true) ∧
  (∀ e d m,
     instanceof e d = true →
     instanceof {| cls := d; message := m |} (cls e) = true →
     cls e = d) ∧
  (∀ c m m' d,
     instanceof {| cls := c; message := m |} d
     = instanceof {| cls := c; message := m' |} d).
Proof.
  split; [|split; [|split; [|split]]].
  - intros [c m]. by destruct c.
  - intros [c m]. by destruct c.
  - intros [c m] d f m'. unfold instanceof. cbn [cls].
    destruct c, d; try (intros; discriminate); destruct f; done.
  - intros [c m] d m'. unfold instanceof. cbn [cls].
    destruct c, d; done.
  - done.
Qed.

(** Decide an equivalence between a test on concrete classes and a list
    of classes. *)
Ltac by_class :=
  split;
  [ intros Hc; vm_compute in Hc; first [discriminate | tauto]
  | intros Hc; vm_compute;
    first [reflexivity | decompose [or] Hc; discriminate] ].

(** What a [catch] that tests one class lets through: a test for
    [LoginError] holds of the three login classes only, a test for
    [CodeError] of the three code classes only, and a test for a class that
    no class extends holds of that class alone. *)
Theorem instanceof_families e :
  (instanceof e LoginError = true
   ↔ cls e = LoginError ∨ cls e = InvalidPasswordError
     ∨ cls e = NoFreeSessionError) ∧
  (instanceof e CodeError = true
   ↔ cls e = CodeError ∨ cls e = CodeBufferError
     ∨ cls e = CodeResponseError) ∧
  (∀ d, (∀ c, extends c ≠ Some d) →
        (instanceof e d = true ↔ cls e = d)).
Proof.
  destruct e as [c m]. unfold instanceof. cbn [cls].
  split; [|split].
  - destruct c; by_class.
  - destruct c; by_class.
  - intros d Hleaf. destruct d.
    + by destruct (Hleaf NotImplementedError).
    + destruct c; by_class.
    + destruct c; by_class.
    + destruct c; by_class.
    + destruct c; by_class.
    + destruct c; by_class.
    + by destruct (Hleaf InvalidPasswordError).
    + destruct c; by_class.
    + destruct c; by_class.
    + by destruct (Hleaf CodeBufferError).
    + destruct c; by_class.
    + destruct c; by_class.
Qed.

End ErrorsLaws.

(** ** More on the board table *)

Module BoardsLaws.
Import Boards BoardsFacts.

Lemma inherited_not_in_table boardType :
  Js.inherited boardType = true → boardDefinitions !! boardType = None.
Proof.
  unfold Js.inherited, Js.object_prototype_names. intros Hin.
  apply bool_decide_eq_true in Hin.
  repeat (apply elem_of_cons in Hin as [->|Hin]; [reflexivity|]).
  by apply elem_of_nil in Hin.
Qed.

(** Valid are the three board types of the table, spelled as there, and
    the names that every object inherits from [Object.prototype]; nothing
    else. *)
Theorem isBoardValid_iff boardType :
  isBoardValid boardType = true
  ↔ boardType = "duetwifi10" ∨ boardType = "duetethernet10"
    ∨ boardType = "duetm10" ∨ Js.inherited boardType = true.
Proof.
  unfold isBoardValid. rewrite read_cases.
  repeat case_decide; simplify_eq; cbn; [tauto..|].
  destruct (Js.inherited boardType); cbn; intuition congruence.
Qed.

(** For a board type that is not a name inherited from [Object.prototype],
    what is handed out is a definition, and it is sound as a description of
    a board: the warning current is below the limit current, the board has
    exactly one of Ethernet and WiFi, it has no more heaters than
    thermistor inputs, as many RTD boards as thermistors, three fans, fewer
    drives than eleven, and the three capabilities every board of the table
    has.  For an inherited name what is handed out is no definition. *)
Theorem getBoardDefinition_sound boardType :
  Js.inherited boardType = false →
  ∃ b,
    (getBoardDefinition boardType).1 = Board b ∧
    0 < motorWarningCurrent b < motorLimitCurrent b ∧
    xorb (hasEthernet b) (hasWiFi b) = true ∧
    0 < maxHeaters b ≤ maxThermistors b ∧
    maxRtdBoards b = maxThermistors b ∧
    maxFans b = 3 ∧
    0 < maxDrives b ≤ 10 ∧
    microstepping b = true ∧
    hasPowerFailureDetection b = true ∧
    hasMotorLoadDetection b = true.
Proof.
  intros Hown. unfold getBoardDefinition. rewrite !read_cases, Hown.
  repeat case_decide; simplify_eq; cbn; eexists; (split; [reflexivity|]);
    cbn; repeat split; lia.
Qed.

(** What a name inherited from [Object.prototype] gets: it is valid, and
    the inherited member is handed out as it is, with no warning. *)
Theorem getBoardDefinition_inherited boardType :
  Js.inherited boardType = true →
  boardDefinitions !! boardType = None ∧
  isBoardValid boardType = true ∧
  getBoardDefinition boardType = (Inherited boardType, []).
Proof.
  intros Hin. pose proof (inherited_not_in_table _ Hin) as Hnone.
  assert (read boardType = Inherited boardType) as Hread
    by (unfold read; by rewrite Hnone, Hin).
  split; [done|]. unfold getBoardDefinition, isBoardValid.
  by rewrite Hread.
Qed.

(** The definition handed out tells the supported boards apart, and cannot
    tell an unsupported board from a Duet WiFi: the result is the Duet WiFi
    definition exactly for ["duetwifi10"] and for the board types that are
    not valid, and two valid board types with the same definition are the
    same. *)
Theorem getBoardDefinition_tells_boards_apart :
  (∀ boardType,
     (getBoardDefinition boardType).1 = defaultBoard
     ↔ boardType = defaultBoardName ∨ isBoardValid boardType = false) ∧
  (∀ a b,
     isBoardValid a = true → isBoardValid b = true →
     (getBoardDefinition a).1 = (getBoardDefinition b).1 → a = b).
Proof.
  split.
  - intros boardType. rewrite defaultBoard_is_duetwifi10.
    unfold getBoardDefinition, isBoardValid, defaultBoardName.
    rewrite !read_cases.
    repeat case_decide; simplify_eq; cbn;
      try (split; intros Hx;
           first [done | by destruct Hx | by inversion Hx | by left
                 | by right]).
    destruct (Js.inherited boardType); cbn; split; intros Hx;
      first [done | by destruct Hx | by inversion Hx | by right].
  - intros a b Ha Hb.
    rewrite (getBoardDefinition_valid _ Ha), (getBoardDefinition_valid _ Hb).
    cbn [fst]. unfold isBoardValid in Ha, Hb. revert Ha Hb.
    rewrite !read_cases.
    repeat case_decide; subst; cbn; try done;
      try (intros _ _ Hx; by inversion Hx);
      repeat match goal with
             | |- context [Js.inherited ?x] => destruct (Js.inherited x)
             end;
      cbn; try done; intros _ _ Hx; by inversion Hx.
Qed.

End BoardsLaws.

(** ** More on the root store *)

Module StoreLaws.
Import Errors Store StoreFacts.

Section WithSurroundings.
Context {env : Surroundings}.

(** *** What one step does to the registry and to the journal *)

Lemma connect_settled_journal hostname handshake registration state r state' :
  connect_settled hostname handshake registration state = (r, state') →
  ∃ evs,
    journal state' = journal state ++ evs ∧
    match handshake with
    | inr _ => Committed (ui_addMachine hostname) ∈ evs
    | inl _ => True
    end.
Proof.
  intros Hrun. unfold connect_settled, try_catch, bind, settle, commit, emit,
    Logger_logGlobal in Hrun.
  destruct handshake as [e|c]; [|destruct registration as [e|[]]];
    cbn in Hrun; simplify_eq; cbn; rewrite <- !app_assoc;
    (eexists; split; [reflexivity|]); [done| |];
    rewrite !elem_of_app, !list_elem_of_singleton; auto.
Qed.

(** A step leaves [state.machines] alone, or adds a module built from a
    session handle (having committed [ui/addMachine]), or deletes a key; and
    it only appends to the journal. *)
Lemma step_registry sys sys' :
  step sys sys' →
  ∃ evs,
    journal (store sys') = journal (store sys) ++ evs ∧
    (state_machines (store sys') = state_machines (store sys) ∨
     (∃ h c,
        state_machines (store sys')
        = <[h := machine (Some c)]> (state_machines (store sys)) ∧
        Committed (ui_addMachine h) ∈ evs) ∨
     (∃ h,
        state_machines (store sys')
        = delete h (state_machines (store sys)))).
Proof.
  intros Hstep.
  destruct Hstep as
    [sys payload r state' Hrun
    |sys hostname before after handshake registration r state' Htasks Hrun
    |sys payload r state' Hrun
    |sys hostname before after teardown r state' Htasks Hrun
    |sys code r state' Hrun
    |sys hostname code before after reply r state' Htasks Hrun];
    cbn [store].
  - destruct (connect_called_inv _ _ _ _ Hrun)
      as [(e & -> & ->)|(-> & _ & _ & _ & _ & ->)].
    + exists []. rewrite app_nil_r. auto.
    + eexists. cbn. rewrite <- app_assoc. split; [reflexivity|]. auto.
  - destruct (connect_settled_journal _ _ _ _ _ _ Hrun) as (evs & Hj & Hui).
    destruct (connect_settled_fields _ _ _ _ _ _ Hrun) as (_ & _ & _ & Hf).
    exists evs. split; [done|].
    destruct handshake as [e|c]; [|destruct registration as [e|[]]];
      destruct Hf as (_ & Esm & _); [by left|right; left; eauto..].
  - destruct (disconnect_called_inv _ _ _ _ Hrun)
      as [(e & -> & ->)|(_ & _ & _ & [(-> & ->)|(-> & Hrem)])].
    + exists []. rewrite app_nil_r. auto.
    + eexists. cbn. rewrite <- app_assoc. split; [reflexivity|]. auto.
    + destruct (disconnect_removal_run
                  (disconnect_target payload (store sys)) (store sys))
        as (s' & Hs' & _ & Esm & _ & _ & _ & _ & _ & Ej).
      rewrite Hs' in Hrem. simplify_eq. eexists. split; [exact Ej|]. eauto.
  - destruct (disconnect_settled_run hostname teardown (store sys))
      as (mid & s' & Hs' & Hrem & _ & Esm & _ & _ & _ & _ & _ & Ej).
    rewrite Hs' in Hrun. simplify_eq.
    destruct (disconnect_removal_run hostname mid)
      as (s'' & Hs'' & _ & Rsm & _ & _ & _ & _ & _ & Rj).
    rewrite Hrem in Hs''. simplify_eq.
    eexists. rewrite Rj, Ej, Rsm, Esm, <- !app_assoc.
    split; [reflexivity|]. eauto.
  - unfold sendCode_called, bind, get_state, emit, ret in Hrun.
    simplify_eq. eexists. cbn. split; [reflexivity|]. auto.
  - rewrite sendCode_settled_run in Hrun.
    destruct reply as [e|response];
      [destruct (instanceof e DisconnectedError)|]; simplify_eq.
    + exists []. rewrite app_nil_r. auto.
    + eexists. cbn. split; [reflexivity|]. auto.
    + eexists. cbn. split; [reflexivity|]. auto.
Qed.

(** What one step does to [isDisconnecting] and to the suspended
    disconnects. *)
Lemma step_disconnect_flag sys sys' :
  step sys sys' →
  (isDisconnecting (store sys) = true → disconnecting (suspended sys) ≠ []) →
  isDisconnecting (store sys') = true →
  disconnecting (suspended sys') ≠ [].
Proof.
  intros Hstep.
  destruct Hstep as
    [sys payload r state' Hrun
    |sys hostname before after handshake registration r state' Htasks Hrun
    |sys payload r state' Hrun
    |sys hostname before after teardown r state' Htasks Hrun
    |sys code r state' Hrun
    |sys hostname code before after reply r state' Htasks Hrun];
    cbn [store suspended]; intros IH.
  - destruct (connect_called_inv _ _ _ _ Hrun)
      as [(e & -> & ->)|(-> & _ & _ & _ & _ & ->)]; cbn; exact IH.
  - destruct (connect_settled_fields _ _ _ _ _ _ Hrun) as (_ & _ & Ed & _).
    rewrite Ed. rewrite Htasks in IH.
    by rewrite disconnecting_skip in IH.
  - destruct (disconnect_called_inv _ _ _ _ Hrun)
      as [(e & -> & ->)|(_ & _ & _ & [(-> & ->)|(-> & Hrem)])]; cbn.
    + exact IH.
    + done.
    + destruct (disconnect_removal_run
                  (disconnect_target payload (store sys)) (store sys))
        as (s' & Hs' & _ & _ & _ & _ & _ & Ed & _).
      rewrite Hs' in Hrem. simplify_eq. by rewrite Ed.
  - destruct (disconnect_settled_run hostname teardown (store sys))
      as (mid & s' & Hs' & Hrem & _ & _ & _ & _ & _ & Ed & _).
    rewrite Hs' in Hrun. simplify_eq.
    destruct (disconnect_removal_run hostname mid)
      as (s'' & Hs'' & _ & _ & _ & _ & _ & Rd & _).
    rewrite Hrem in Hs''. simplify_eq. rewrite Rd, Ed. done.
  - unfold sendCode_called, bind, get_state, emit, ret in Hrun.
    simplify_eq. cbn. exact IH.
  - assert (isDisconnecting state' = isDisconnecting (store sys)) as ->.
    { rewrite sendCode_settled_run in Hrun.
      destruct reply as [e|response];
        [destruct (instanceof e DisconnectedError)|]; by simplify_eq. }
    rewrite Htasks in IH. by rewrite disconnecting_skip in IH.
Qed.

Lemma boot_tidy : tidy boot.
Proof.
  split; cbn; try done.
  - intros h m Hm Hne. apply lookup_singleton_Some in Hm as [<- _]. done.
  - intros h Hne [m Hm]. apply lookup_singleton_Some in Hm as [<- _]. done.
Qed.

Lemma step_tidy sys sys' : tidy sys → step sys sys' → tidy sys'.
Proof.
  intros [Hconn Hflag Hann] Hstep.
  destruct (step_registry sys sys' Hstep)
    as (evs & Hj & [Hsame|[(h & c & Hins & Hui)|(h & Hdel)]]).
  - split.
    + rewrite Hsame. exact Hconn.
    + by apply (step_disconnect_flag sys).
    + rewrite Hsame, Hj. intros h Hne Hreg. apply elem_of_app. auto.
  - split.
    + rewrite Hins. intros h' m Hm Hne.
      rewrite lookup_insert in Hm. case_decide; simplify_eq; eauto.
    + by apply (step_disconnect_flag sys).
    + rewrite Hins, Hj. intros h' Hne Hreg. apply elem_of_app.
      rewrite lookup_insert in Hreg. case_decide; simplify_eq; auto.
  - split.
    + rewrite Hdel. intros h' m Hm Hne.
      rewrite lookup_delete in Hm. case_decide; simplify_eq; eauto.
    + by apply (step_disconnect_flag sys).
    + rewrite Hdel, Hj. intros h' Hne Hreg. apply elem_of_app.
      rewrite lookup_delete in Hreg. case_decide; [by destruct Hreg|auto].
Qed.

Lemma reachable_tidy sys : reachable sys → tidy sys.
Proof.
  induction 1 as [|sys sys' _ IH Hstep]; [apply boot_tidy|].
  by apply (step_tidy sys).
Qed.

(** *** Invariants of the reachable systems *)

(** The module-level [machines] object and the modules registered under
    [state.machines] go together in every reachable system: a read
    [machines[h]] of a registered hostname finds the module registered
    under it, and apart from ["__proto__"], which is never an own property
    of [machines], the two have the same own properties.  [addMachine] and
    [removeMachine] are the only mutations that touch either, and each
    touches both. *)
Theorem registries_coincide sys :
  reachable sys →
  (∀ h m,
     state_machines (store sys) !! h = Some m →
     machines_get (machines (store sys)) h = IsModule m) ∧
  (∀ h, h ≠ "__proto__" →
        own (machines (store sys)) !! h = state_machines (store sys) !! h) ∧
  own (machines (store sys)) !! "__proto__" = None.
Proof.
  intros Hreach. pose proof (reachable_consistent sys Hreach) as Hcons.
  split; [|split; [apply Hcons|apply Hcons]].
  intros h m Hm. unfold machines_get.
  destruct (decide (h = "__proto__")) as [->|Hne].
  - rewrite (machines_own_proto _ Hcons).
    by rewrite (machines_prototype _ Hcons _ Hm).
  - by rewrite (machines_mirrored _ Hcons h Hne), Hm.
Qed.

(** The module of the factory defaults stays registered under ["default"]
    in every reachable system, and it is the only registered module that
    was not built from a session handle. *)
Theorem default_module_is_permanent sys :
  reachable sys →
  state_machines (store sys) !! "default" = Some (machine None) ∧
  (∀ h m,
     state_machines (store sys) !! h = Some m →
     (h = "default" ↔ m = machine None)).
Proof.
  intros Hreach. pose proof (reachable_consistent sys Hreach) as Hcons.
  pose proof (reachable_tidy sys Hreach) as Htidy.
  split; [apply Hcons|].
  intros h m Hm. split.
  - intros ->. rewrite (default_registered _ Hcons) in Hm. by simplify_eq.
  - intros ->. destruct (decide (h = "default")) as [|Hne]; [done|].
    destruct (modules_have_connectors _ Htidy h _ Hm Hne) as [c Hc].
    discriminate.
Qed.

(** While a connect is suspended at its handshake, its hostname is not
    ["default"] and stays out of [state.machines] whatever else runs, so
    the [addMachine] it commits on success never replaces a registered
    module; and the gate is set. *)
Theorem suspended_connect_target_is_free sys hostname :
  reachable sys →
  Connecting hostname ∈ suspended sys →
  state_machines (store sys) !! hostname = None ∧
  hostname ≠ "default" ∧
  isConnecting (store sys) = true.
Proof.
  intros Hreach Hin. pose proof (reachable_consistent sys Hreach) as Hcons.
  assert (hostname ∈ connecting (suspended sys)) as Hc.
  { unfold connecting. apply list_elem_of_omap.
    exists (Connecting hostname). done. }
  pose proof (connect_gate _ Hcons) as Hgate.
  destruct (connecting (suspended sys)) as [|h [|]]; try done.
  - by apply elem_of_nil in Hc.
  - apply list_elem_of_singleton in Hc as ->.
    destruct Hgate as [Hflag Hfree]. split; [done|]. split; [|done].
    intros ->. rewrite (default_registered _ Hcons) in Hfree. discriminate.
Qed.

(** Neither flag sticks: in every reachable system [isDisconnecting] is set
    only while some disconnect is suspended at its teardown, and when no
    action is suspended both flags are false. *)
Theorem flags_only_while_suspended sys :
  reachable sys →
  (isDisconnecting (store sys) = true →
   (1 ≤ disconnects_in_flight sys)%nat) ∧
  (suspended sys = [] →
   isConnecting (store sys) = false ∧ isDisconnecting (store sys) = false).
Proof.
  intros Hreach. pose proof (reachable_consistent sys Hreach) as Hcons.
  pose proof (reachable_tidy sys Hreach) as Htidy.
  split.
  - intros Hflag. pose proof (disconnect_flag _ Htidy Hflag) as Hne.
    unfold disconnects_in_flight.
    destruct (disconnecting (suspended sys)); [done|]. cbn. lia.
  - intros Hnone. split.
    + pose proof (connect_gate _ Hcons) as Hgate. by rewrite Hnone in Hgate.
    + destruct (isDisconnecting (store sys)) eqn:Hflag; [|done].
      pose proof (disconnect_flag _ Htidy Hflag) as Hne.
      by rewrite Hnone in Hne.
Qed.

(** In every reachable system the getter [isConnected] holds exactly when
    the module mounted as ['machine'] was built from a session handle. *)
Theorem isConnected_iff_connector_mounted sys :
  reachable sys →
  (isConnected (store sys) = true
   ↔ ∃ c, machine_module (store sys) = Some (machine (Some c))).
Proof.
  intros Hreach. pose proof (reachable_consistent sys Hreach) as Hcons.
  pose proof (reachable_tidy sys Hreach) as Htidy.
  unfold isConnected. rewrite negb_true_iff, bool_decide_eq_false.
  rewrite (machine_is_selected _ Hcons).
  split.
  - intros Hne. destruct (selected_registered _ Hcons) as [m Hm].
    destruct (modules_have_connectors _ Htidy _ _ Hm Hne) as [c ->].
    by exists c.
  - intros [c Hc] Hd. rewrite Hd, (default_registered _ Hcons) in Hc.
    discriminate.
Qed.

(** In every reachable system, [ui/addMachine] has been committed for every
    hostname other than ["default"] that is registered. *)
Theorem registered_machines_were_announced sys hostname :
  reachable sys →
  hostname ≠ "default" →
  is_Some (state_machines (store sys) !! hostname) →
  Committed (ui_addMachine hostname) ∈ journal (store sys).
Proof.
  intros Hreach. apply (machines_announced _ (reachable_tidy sys Hreach)).
Qed.

(** *** What an action leaves alone *)

(** A connect, whatever its outcome, changes no registration other than
    that of its own hostname, leaves [isDisconnecting] alone, and leaves the
    selection either where it was or on its own hostname. *)
Theorem connect_touches_only_its_target
    payload handshake registration state h :
  h ≠ connect_target payload →
  state_machines (connect payload handshake registration state).2 !! h
  = state_machines state !! h ∧
  own (machines (connect payload handshake registration state).2) !! h
  = own (machines state) !! h ∧
  isDisconnecting (connect payload handshake registration state).2
  = isDisconnecting state ∧
  (selectedMachine (connect payload handshake registration state).2
   = selectedMachine state ∨
   selectedMachine (connect payload handshake registration state).2
   = connect_target payload).
Proof.
  intros Hne. unfold connect, bind.
  destruct (connect_called payload state) as [[e|target] s1] eqn:Hcall.
  - destruct (connect_called_inv _ _ _ _ Hcall)
      as [(e' & _ & ->)|(? & _)]; [|done]. cbn. auto.
  - destruct (connect_called_inv _ _ _ _ Hcall)
      as [(e' & ? & _)|(Ht & _ & _ & _ & _ & ->)]; [done|]. simplify_eq.
    destruct (connect_settled (connect_target payload) handshake registration
                (admitted_connect (connect_target payload)
                   (default "" (c_user payload))
                   (default "reprap" (c_password payload)) state))
      as [r s'] eqn:Hs.
    destruct (connect_settled_fields _ _ _ _ _ _ Hs) as (_ & _ & Ed & Hf).
    cbn [snd]. rewrite Ed.
    destruct handshake as [e|c]; [|destruct registration as [e|[]]];
      destruct Hf as (Em & Esm & Es & _); rewrite Em, Esm, Es; cbn;
      rewrite ?machines_set_own by done;
      rewrite ?lookup_insert_ne by done; auto.
Qed.

(** A disconnect, whatever its outcome, changes no registration other than
    that of its own hostname, leaves [isConnecting] alone, commits no
    mutation of the [ui] module, and leaves the selection and the mounted
    module as they were unless its hostname is the selected one. *)
Theorem disconnect_touches_only_its_target payload teardown state h :
  h ≠ disconnect_target payload state →
  state_machines (disconnect payload teardown state).2 !! h
  = state_machines state !! h ∧
  own (machines (disconnect payload teardown state).2) !! h
  = own (machines state) !! h ∧
  isConnecting (disconnect payload teardown state).2 = isConnecting state ∧
  (∀ hostname,
     Committed (ui_addMachine hostname) ∈
       journal (disconnect payload teardown state).2 →
     Committed (ui_addMachine hostname) ∈ journal state) ∧
  (selectedMachine state ≠ disconnect_target payload state →
   selectedMachine (disconnect payload teardown state).2
   = selectedMachine state ∧
   machine_module (disconnect payload teardown state).2
   = machine_module state).
Proof.
  intros Hne.
  destruct (decide (disconnect_target payload state = "default")) as [Hd|Hd].
  { destruct (disconnect_refused payload teardown state) as [e ->];
      [by left|]. by cbn. }
  destruct (state_machines state !! disconnect_target payload state)
    as [m|] eqn:Hm.
  2: { destruct (disconnect_refused payload teardown state) as [e ->];
         [by right; right|]. by cbn. }
  destruct (state_machines state !! "hasOwnProperty") as [shadow|] eqn:Hsh.
  { destruct (disconnect_refused payload teardown state) as [e ->];
      [right; left; by rewrite Hsh|]. by cbn. }
  destruct (disconnect_registered_run payload teardown state Hd Hsh)
    as (s' & -> & Em & Esm & Es & Emm & Ec & _ & _ & Ej); [by eexists|].
  cbn [snd]. rewrite Em, Esm, Es, Emm, Ec, Ej. cbn [machines_delete own].
  rewrite !lookup_delete_ne by done.
  split; [done|]. split; [done|]. split; [done|]. split.
  - intros hostname. rewrite !elem_of_app.
    destruct (disconnect_live payload), teardown as [e|[]];
      destruct (decide (selectedMachine state
                        = disconnect_target payload state));
      rewrite ?elem_of_app, ?elem_of_cons, ?elem_of_nil;
      intros Hin; decompose [or] Hin; try done; discriminate.
  - intros Hns. by rewrite !decide_False.
Qed.

(** *** How the actions compose *)

Lemma connect_admitted_run payload handshake registration state :
  connect_target payload ≠ "default" →
  state_machines state !! "hasOwnProperty" = None →
  state_machines state !! connect_target payload = None →
  isConnecting state = false →
  ∃ after,
    connect payload handshake registration state = (inr tt, after) ∧
    connect_settled (connect_target payload) handshake registration
      (admitted_connect (connect_target payload)
         (default "" (c_user payload))
         (default "reprap" (c_password payload)) state)
    = (inr tt, after) ∧
    isConnecting after = false.
Proof.
  intros Hne Hshadow Hfree Hgate. unfold connect, bind.
  rewrite (connect_called_admits payload state Hne Hshadow Hfree Hgate).
  destruct (connect_settled_returns (connect_target payload) handshake
              registration
              (admitted_connect (connect_target payload)
                 (default "" (c_user payload))
                 (default "reprap" (c_password payload)) state))
    as (after & Hrun & Hflag & _).
  by exists after.
Qed.

Lemma connect_refused_registered payload handshake registration state :
  connect_target payload ≠ "default" →
  state_machines state !! "hasOwnProperty" = None →
  is_Some (state_machines state !! connect_target payload) →
  connect payload handshake registration state
  = (inl (new_Error ("Host " +:+ connect_target payload
                     +:+ " is already connected!")), state).
Proof.
  intros Hne Hshadow [m Hm].
  unfold connect, bind at 1.
  unfold connect_called, bind, get_state, throw.
  rewrite decide_False by done. rewrite hasOwnProperty_run, Hshadow.
  by rewrite Hm.
Qed.

Lemma disconnect_default_refused payload teardown state :
  disconnect_target payload state = "default" →
  disconnect payload teardown state
  = (inl (new_Error "Invalid hostname (default is reserved)"), state).
Proof.
  intros Hd. unfold disconnect, bind at 1.
  unfold disconnect_called, bind, get_state, throw.
  by rewrite decide_True.
Qed.

(** From a reachable store: a connect that succeeds, to a hostname other
    than ["hasOwnProperty"], followed by a disconnect of the same hostname
    (named in the payload, or left out since it is the selected one), puts
    [state.machines] and the own properties of [machines] back as they
    were before the connect, with ["default"] selected and its module
    mounted, whatever was selected before and however the teardown goes:
    [isConnected] is false then, also when other machines are still
    registered.  The same connect is admitted again afterwards.  What is
    not put back is the prototype of [machines] when the hostname was
    ["__proto__"]: it stays the module of the machine that is gone. *)
Theorem connect_then_disconnect_restores
    sys payload c back teardown :
  reachable sys →
  connect_target payload ≠ "default" →
  connect_target payload ≠ "hasOwnProperty" →
  state_machines (store sys) !! "hasOwnProperty" = None →
  state_machines (store sys) !! connect_target payload = None →
  isConnecting (store sys) = false →
  back = None ∨
  (∃ live, back = Some {| d_hostname := connect_target payload;
                          d_doDisconnect := live |}) →
  ∃ online offline,
    connect payload (inr c) (inr tt) (store sys) = (inr tt, online) ∧
    disconnect back teardown online = (inr tt, offline) ∧
    state_machines offline = state_machines (store sys) ∧
    own (machines offline) = own (machines (store sys)) ∧
    prototype (machines offline)
    = (if decide (connect_target payload = "__proto__")
       then Some (machine (Some c))
       else prototype (machines (store sys))) ∧
    selectedMachine offline = "default" ∧
    isConnected offline = false ∧
    machine_module offline = Some (machine None) ∧
    isConnecting offline = false ∧
    ∃ again,
      connect_called payload offline = (inr (connect_target payload), again).
Proof.
  intros Hreach Hne Hnh Hshadow Hfree Hgate Hback.
  pose proof (reachable_consistent sys Hreach) as Hcons.
  pose proof (machines_own_proto _ Hcons) as Hop.
  destruct (connect_admitted_run payload (inr c) (inr tt) (store sys)
              Hne Hshadow Hfree Hgate) as (online & Hrun & Hsettled & Hflag).
  destruct (connect_settled_fields _ _ _ _ _ _ Hsettled)
    as (_ & _ & _ & Em & Esm & Hsel & _).
  cbn in Em, Esm.
  assert (disconnect_target back online = connect_target payload) as Ht.
  { destruct Hback as [->|[live ->]]; [exact Hsel|done]. }
  destruct (disconnect_registered_run back teardown online)
    as (offline & Hoff & Dm & Dsm & Ds & Dmm & Dc & _).
  { by rewrite Ht. }
  { rewrite Esm. by rewrite lookup_insert_ne. }
  { rewrite Ht, Esm, lookup_insert_eq. by eexists. }
  rewrite Ht in Dm, Dsm, Ds, Dmm.
  rewrite decide_True in Ds by done.
  rewrite decide_True in Dmm by done.
  assert (state_machines offline = state_machines (store sys)) as Rsm.
  { rewrite Dsm, Esm, delete_insert_eq. by apply delete_id. }
  assert (own (machines (store sys)) !! connect_target payload = None)
    as Hfree'.
  { destruct (decide (connect_target payload = "__proto__")) as [->|Hnp];
      [done|]. by rewrite (machines_mirrored _ Hcons _ Hnp). }
  exists online, offline.
  split; [done|]. split; [done|]. split; [done|]. split.
  { rewrite Dm, Em. unfold machines_delete, machines_set. cbn [own].
    rewrite Hfree'. case_decide; cbn [own].
    - by apply delete_id.
    - rewrite delete_insert_eq. by apply delete_id. }
  split.
  { rewrite Dm, Em. cbn [machines_delete prototype].
    by apply machines_set_prototype. }
  split; [done|]. split; [unfold isConnected; by rewrite Ds|]. split.
  { rewrite Dmm, Em. unfold machines_get.
    rewrite machines_set_own by done.
    rewrite (machines_mirrored _ Hcons) by done.
    by rewrite (default_registered _ Hcons). }
  split; [by rewrite Dc|].
  eexists. apply connect_called_admits; [done| | |].
  - by rewrite Rsm.
  - by rewrite Rsm.
  - by rewrite Dc.
Qed.

(** What a second connect to the same hostname meets once the first has
    run its course: after a failed handshake it is admitted; after a
    handshake that succeeded it is refused as already connected, also when
    the first stopped at a failing [connectorInstance.register], unless the
    hostname is ["hasOwnProperty"], when it throws the [TypeError] of the
    check instead. *)
Theorem connect_again_after payload handshake registration state :
  connect_target payload ≠ "default" →
  state_machines state !! "hasOwnProperty" = None →
  state_machines state !! connect_target payload = None →
  isConnecting state = false →
  ∃ after,
    connect payload handshake registration state = (inr tt, after) ∧
    match handshake with
    | inl _ =>
        ∃ again,
          connect_called payload after
          = (inr (connect_target payload), again)
    | inr _ =>
        ∀ handshake' registration',
          connect payload handshake' registration' after
          = (inl (if decide (connect_target payload = "hasOwnProperty")
                  then {| cls := TypeError; message := not_a_function |}
                  else new_Error ("Host " +:+ connect_target payload
                                  +:+ " is already connected!")), after)
    end.
Proof.
  intros Hne Hshadow Hfree Hgate.
  destruct (connect_admitted_run payload handshake registration state
              Hne Hshadow Hfree Hgate) as (after & Hrun & Hsettled & Hflag).
  exists after. split; [exact Hrun|].
  destruct (connect_settled_fields _ _ _ _ _ _ Hsettled) as (_ & _ & _ & Hf).
  destruct handshake as [e|c].
  - destruct Hf as (_ & Esm & _). eexists.
    apply connect_called_admits; [done| | |done]; by rewrite Esm.
  - intros handshake' registration'.
    assert (state_machines after
            = <[connect_target payload := machine (Some c)]>
                (state_machines state)) as Esm
      by (destruct registration as [e|[]]; by destruct Hf as (_ & -> & _)).
    case_decide as Hname.
    + apply connect_shadowed; [|done].
      rewrite Esm, <- Hname, lookup_insert_eq. by eexists.
    + apply connect_refused_registered; [done| |].
      * rewrite Esm. by rewrite lookup_insert_ne.
      * rewrite Esm, lookup_insert_eq. by eexists.
Qed.

(** A disconnect aimed at ["default"] is refused as reserved whatever the
    registry holds and whatever [doDisconnect] says, the store untouched;
    this is what [disconnect()] without a payload meets whenever
    [isConnected] is false. *)
Theorem disconnect_of_default_refused payload teardown state :
  (disconnect_target payload state = "default" →
   disconnect payload teardown state
   = (inl (new_Error "Invalid hostname (default is reserved)"), state)) ∧
  (isConnected state = false →
   disconnect None teardown state
   = (inl (new_Error "Invalid hostname (default is reserved)"), state)).
Proof.
  split; [apply disconnect_default_refused|].
  intros Hoff. apply disconnect_default_refused. cbn.
  unfold isConnected in Hoff.
  apply negb_false_iff, bool_decide_eq_true in Hoff. done.
Qed.

(** Once a disconnect of a registered hostname has run (no machine being
    named ["hasOwnProperty"]), a second disconnect naming that hostname is
    refused as already disconnected, and a second [disconnect()] without a
    payload, when the hostname was the selected one, is refused as
    reserved; either leaves the store as the first left it. *)
Theorem disconnect_twice_refused payload teardown teardown' live state :
  disconnect_target payload state ≠ "default" →
  state_machines state !! "hasOwnProperty" = None →
  is_Some (state_machines state !! disconnect_target payload state) →
  ∃ offline,
    disconnect payload teardown state = (inr tt, offline) ∧
    disconnect (Some {| d_hostname := disconnect_target payload state;
                        d_doDisconnect := live |}) teardown' offline
    = (inl (new_Error ("Host " +:+ disconnect_target payload state
                       +:+ " is already disconnected!")), offline) ∧
    (selectedMachine state = disconnect_target payload state →
     disconnect None teardown' offline
     = (inl (new_Error "Invalid hostname (default is reserved)"), offline)).
Proof.
  intros Hne Hshadow Hreg.
  destruct (disconnect_registered_run payload teardown state Hne Hshadow
              Hreg) as (offline & Hrun & _ & Esm & Es & _).
  exists offline. split; [done|]. split.
  - unfold disconnect, bind at 1.
    unfold disconnect_called, bind, get_state, throw.
    cbn [disconnect_target d_hostname].
    rewrite decide_False by done. rewrite hasOwnProperty_run, Esm.
    assert (disconnect_target payload state ≠ "hasOwnProperty") as Hnh.
    { intros Heq. rewrite Heq, Hshadow in Hreg. by destruct Hreg. }
    rewrite lookup_delete_ne by done. rewrite Hshadow.
    by rewrite lookup_delete_eq.
  - intros Hsel.
    apply disconnect_default_refused.
    cbn. rewrite Es. by rewrite decide_True.
Qed.


(** What [sendCode] logs for each error the constructors of
    [utils/errors.js] build, when the dispatch fails with it: nothing for
    [new DisconnectedError()], a ['warning'] for [new CodeBufferError()],
    and for every other one an ['error'], always with the message the
    constructor gave it; the error is thrown on unchanged. *)
Theorem sendCode_on_constructed_error code k state :
  ∃ state',
    sendCode code (inl (construct k)) state = (inl (construct k), state') ∧
    instanceof (construct k) Error = true ∧
    journal state'
    = journal state
      ++ [Dispatched ("machines/" +:+ selectedMachine state +:+ "/sendCode")
            (Some code)]
      ++ match k with
         | NewDisconnectedError => []
         | NewCodeBufferError =>
             [StoreLog "warning" (i18n_t "error.codeBufferError" [])]
         | NewNotImplementedError field =>
             [StoreLog "error" (i18n_t "error.notImplemented" [field])]
         | NewTimeoutError =>
             [StoreLog "error" (i18n_t "error.timeoutError" [])]
         | NewOperationFailedError reason =>
             [StoreLog "error" (i18n_t "error.operationFailed" [reason])]
         | NewLoginError msg | NewCodeError msg => [StoreLog "error" msg]
         | NewInvalidPasswordError =>
             [StoreLog "error" (i18n_t "error.invalidPassword" [])]
         | NewNoFreeSessionError =>
             [StoreLog "error" (i18n_t "error.noFreeSession" [])]
         | NewCodeResponseError =>
             [StoreLog "error" (i18n_t "error.codeResponseError" [])]
         end.
Proof.
  unfold sendCode, bind at 1.
  unfold sendCode_called, bind, get_state, emit, ret.
  rewrite sendCode_settled_run.
  rewrite instanceof_DisconnectedError, instanceof_CodeBufferError.
  eexists. split; [reflexivity|]. split; [by destruct k|].
  destruct k; cbn [construct cls message]; repeat case_bool_decide;
    simplify_eq; cbn; rewrite <- ?app_assoc; done.
Qed.

(** A connect without a hostname aims at [location.hostname].  It is
    refused as reserved exactly when the page is served from a host named
    ["default"]; from a local page (the getter [isLocal]) it never is. *)
Theorem connect_without_hostname user password handshake registration state :
  connect_target {| c_hostname := None; c_user := user;
                    c_password := password |} = location_hostname ∧
  ((connect {| c_hostname := None; c_user := user; c_password := password |}
      handshake registration state).1
   = inl (new_Error "Invalid hostname (default is reserved)")
   ↔ location_hostname = "default") ∧
  (isLocal = true → location_hostname ≠ "default").
Proof.
  split; [done|]. split.
  - split.
    + intros Hrun. destruct (decide (location_hostname = "default"));
        [done|exfalso].
      unfold connect, bind at 1 in Hrun.
      unfold connect_called, bind, get_state, throw in Hrun.
      cbn [connect_target c_hostname default] in Hrun.
      rewrite decide_False in Hrun by done.
      rewrite hasOwnProperty_run in Hrun.
      destruct (state_machines state !! "hasOwnProperty");
        [cbn in Hrun; discriminate|].
      destruct (state_machines state !! location_hostname);
        [cbn in Hrun; discriminate|].
      destruct (isConnecting state); [cbn in Hrun; discriminate|].
      unfold commit at 1, emit at 1, ret in Hrun.
      match type of Hrun with
      | context [connect_settled ?h ?hs ?rg ?st] =>
          destruct (connect_settled_returns h hs rg st) as (s' & Hs' & _)
      end.
      rewrite Hs' in Hrun. discriminate.
    + intros Hd. unfold connect, bind at 1.
      unfold connect_called, bind, get_state, throw.
      cbn [connect_target c_hostname default]. by rewrite decide_True.
  - unfold isLocal. intros Hlocal Hd. rewrite Hd in Hlocal.
    vm_compute in Hlocal. discriminate.
Qed.

End WithSurroundings.
End StoreLaws.

(** ** The further theorems at work in the concrete setting *)

Module MoreExamples.
Import Errors Boards BoardsLaws Store StoreFacts StoreLaws Lab Examples.

#[local] Existing Instance surroundings.

Lemma registries_coincide_witness :
  reachable online ∧
  own (machines (store online)) !! "__proto__" = None.
Proof.
  split; [exact online_reachable|].
  exact (proj2 (proj2 (registries_coincide online online_reachable))).
Defined.

Lemma default_module_is_permanent_witness :
  reachable online ∧
  state_machines (store online) !! "default"
  = Some (machine (env := surroundings) None).
Proof.
  split; [exact online_reachable|].
  exact (proj1 (default_module_is_permanent online online_reachable)).
Defined.

Lemma suspended_connect_target_is_free_witness :
  (reachable handshaking ∧ Connecting "10.0.0.5" ∈ suspended handshaking) ∧
  state_machines (store handshaking) !! "10.0.0.5" = None.
Proof.
  assert (Connecting "10.0.0.5" ∈ suspended handshaking) as Hin
    by constructor.
  split; [split; [exact handshaking_reachable|exact Hin]|].
  exact (proj1 (suspended_connect_target_is_free handshaking "10.0.0.5"
                  handshaking_reachable Hin)).
Defined.

Lemma flags_only_while_suspended_witness :
  reachable tearing_down ∧
  isDisconnecting (store tearing_down) = true ∧
  (1 ≤ disconnects_in_flight tearing_down)%nat.
Proof.
  assert (isDisconnecting (store tearing_down) = true) as Hflag
    by (vm_compute; reflexivity).
  split; [exact tearing_down_reachable|]. split; [exact Hflag|].
  exact (proj1 (flags_only_while_suspended tearing_down
                  tearing_down_reachable) Hflag).
Defined.

Lemma isConnected_iff_connector_mounted_witness :
  reachable online ∧
  ∃ c, machine_module (store online)
       = Some (machine (env := surroundings) (Some c)).
Proof.
  split; [exact online_reachable|].
  apply (isConnected_iff_connector_mounted online online_reachable).
  vm_compute. reflexivity.
Defined.

Lemma registered_machines_were_announced_witness :
  (reachable online ∧ "10.0.0.5" ≠ "default" ∧
   is_Some (state_machines (store online) !! "10.0.0.5")) ∧
  Committed (ui_addMachine "10.0.0.5") ∈ journal (store online).
Proof.
  assert ("10.0.0.5" ≠ "default") as Hne by discriminate.
  assert (is_Some (state_machines (store online) !! "10.0.0.5")) as Hreg.
  { exists (machine (env := surroundings) (Some 7%nat)).
    vm_compute. reflexivity. }
  split; [by repeat split; try exact online_reachable|].
  exact (registered_machines_were_announced online "10.0.0.5"
           online_reachable Hne Hreg).
Defined.

Lemma connect_touches_only_its_target_witness :
  "default" ≠ connect_target printer ∧
  state_machines
    (connect (env := surroundings) printer (inr 7%nat) (inl boom) initial).2
  !! "default"
  = state_machines (env := surroundings) initial !! "default".
Proof.
  assert ("default" ≠ connect_target printer) as Hne
    by (vm_compute; discriminate).
  split; [exact Hne|].
  exact (proj1 (connect_touches_only_its_target (env := surroundings)
                  printer (inr 7%nat) (inl boom) initial "default" Hne)).
Defined.

Lemma disconnect_touches_only_its_target_witness :
  "default" ≠ disconnect_target None connected ∧
  state_machines
    (disconnect (env := surroundings) None (inl boom) connected).2
  !! "default"
  = state_machines connected !! "default".
Proof.
  assert ("default" ≠ disconnect_target None connected) as Hne
    by (vm_compute; discriminate).
  split; [exact Hne|].
  exact (proj1 (disconnect_touches_only_its_target (env := surroundings)
                  None (inl boom) connected "default" Hne)).
Defined.

Lemma connect_then_disconnect_restores_witness :
  (reachable boot ∧
   connect_target printer ≠ "default" ∧
   connect_target printer ≠ "hasOwnProperty" ∧
   state_machines (store boot) !! "hasOwnProperty" = None ∧
   state_machines (store boot) !! connect_target printer = None ∧
   isConnecting (store boot) = false) ∧
  ∃ online offline,
    connect (env := surroundings) printer (inr 7%nat) (inr tt) (store boot)
    = (inr tt, online) ∧
    disconnect None (inl boom) online = (inr tt, offline) ∧
    state_machines offline = state_machines (store boot).
Proof.
  assert (connect_target printer ≠ "default") as H1
    by (vm_compute; discriminate).
  assert (connect_target printer ≠ "hasOwnProperty") as H2
    by (vm_compute; discriminate).
  assert (state_machines (store boot) !! "hasOwnProperty" = None) as H3
    by (vm_compute; reflexivity).
  assert (state_machines (store boot) !! connect_target printer = None)
    as H4 by (vm_compute; reflexivity).
  assert (isConnecting (store boot) = false) as H5 by reflexivity.
  split; [by repeat split; try exact reachable_boot|].
  destruct (connect_then_disconnect_restores (env := surroundings)
              boot printer 7%nat None (inl boom) reachable_boot
              H1 H2 H3 H4 H5 (or_introl eq_refl))
    as (on & off & Hc & Hd & Hsm & _).
  exists on, off. repeat split; assumption.
Defined.

Lemma connect_again_after_witness :
  (connect_target printer ≠ "default" ∧
   state_machines (env := surroundings) initial !! "hasOwnProperty" = None ∧
   state_machines (env := surroundings) initial !! connect_target printer
   = None ∧
   isConnecting (env := surroundings) initial = false) ∧
  ∃ after,
    connect (env := surroundings) printer (inr 7%nat) (inl boom) initial
    = (inr tt, after) ∧
    connect printer (inr 8%nat) (inr tt) after
    = (inl (new_Error ("Host " +:+ connect_target printer
                       +:+ " is already connected!")), after).
Proof.
  assert (connect_target printer ≠ "default") as H1
    by (vm_compute; discriminate).
  assert (state_machines (env := surroundings) initial
          !! "hasOwnProperty" = None) as H2
    by (vm_compute; reflexivity).
  assert (state_machines (env := surroundings) initial
          !! connect_target printer = None) as H3
    by (vm_compute; reflexivity).
  assert (isConnecting (env := surroundings) initial = false) as H4
    by reflexivity.
  split; [by repeat split|].
  destruct (connect_again_after (env := surroundings) printer
              (inr 7%nat) (inl boom) initial H1 H2 H3 H4)
    as (after & Hrun & Hagain).
  exists after. split; [exact Hrun|].
  exact (Hagain (inr 8%nat) (inr tt)).
Defined.

Lemma disconnect_twice_refused_witness :
  (disconnect_target None connected ≠ "default" ∧
   state_machines connected !! "hasOwnProperty" = None ∧
   is_Some (state_machines connected !! disconnect_target None connected)) ∧
  ∃ offline,
    disconnect (env := surroundings) None (inr tt) connected
    = (inr tt, offline) ∧
    disconnect None (inr tt) offline
    = (inl (new_Error "Invalid hostname (default is reserved)"), offline).
Proof.
  assert (disconnect_target None connected ≠ "default") as H1
    by (vm_compute; discriminate).
  assert (state_machines connected !! "hasOwnProperty" = None) as H2
    by (vm_compute; reflexivity).
  assert (is_Some (state_machines connected
                   !! disconnect_target None connected)) as H3.
  { exists (machine (env := surroundings) (Some 7%nat)).
    vm_compute. reflexivity. }
  split; [by repeat split|].
  destruct (disconnect_twice_refused (env := surroundings) None (inr tt)
              (inr tt) None connected H1 H2 H3)
    as (offline & Hrun & _ & Hsecond).
  exists offline. split; [exact Hrun|]. apply Hsecond. reflexivity.
Defined.


Lemma getBoardDefinition_sound_witness :
  Js.inherited "duet3" = false ∧
  ∃ b, (getBoardDefinition "duet3").1 = Board b ∧ maxFans b = 3.
Proof.
  assert (Js.inherited "duet3" = false) as Hown
    by (vm_compute; reflexivity).
  split; [exact Hown|].
  destruct (getBoardDefinition_sound "duet3" Hown)
    as (b & Hb & _ & _ & _ & _ & Hfans & _).
  by exists b.
Defined.

Lemma getBoardDefinition_inherited_witness :
  Js.inherited "toString" = true ∧
  getBoardDefinition "toString" = (Inherited "toString", []).
Proof.
  assert (Js.inherited "toString" = true) as Hin
    by (vm_compute; reflexivity).
  split; [exact Hin|].
  exact (proj2 (proj2 (getBoardDefinition_inherited "toString" Hin))).
Defined.

(** A local page: the getter holds and a connect without a hostname goes
    through to ["localhost"]. *)
Lemma local_page_connects :
  isLocal (env := local_surroundings) = true ∧
  (connect (env := local_surroundings)
     {| c_hostname := None; c_user := None; c_password := None |}
     (inr 1%nat) (inr tt) initial).1 = inr tt ∧
  selectedMachine
    (connect (env := local_surroundings)
       {| c_hostname := None; c_user := None; c_password := None |}
       (inr 1%nat) (inr tt) initial).2 = "localhost".
Proof. repeat split; vm_compute; reflexivity. Qed.

End MoreExamples.

